(** * Escrow demo bot: the deal life cycle of [main.py]

    A shallow embedding of the deal store, the deal state machine, the
    deferred deposit verification and the seed-phrase issuance of
    [main.py], followed by the properties of the specification that
    were checked against it.

    Conventions.
    - A Python [float] is a binary64 value: Rocq's primitive [float].
    - A Python [int] is a [Z].
    - A [str] is a [string] of bytes; every string the program splits
      or joins is made of ASCII dictionary words and spaces.
    - The SQLite table [deals] is a finite map from row id to row,
      together with the AUTOINCREMENT counter kept in [sqlite_sequence].
    - Handlers run in a state monad over the [World]: the database, the
      administrator set, the global random generator, the clock, the
      asyncio tasks created and not yet run, and the trace of messages
      sent and lines printed. *)

From Stdlib Require Import ZArith String Ascii.
From Stdlib Require Import Floats.PrimFloat Floats.FloatOps Floats.SpecFloat.
From stdpp Require Import base option list gmap strings pretty.

Local Open Scope Z_scope.
Local Open Scope string_scope.
#[local] Set Warnings "-inexact-float".

(** ** Python built-ins used by the program *)

Module Py.

(** *** [round(x, 2)] on a float

    CPython rounds the exact value of [x] to the nearest multiple of
    1/100, ties going to the even multiple, and returns the float
    nearest to that decimal. Infinities, NaN and zeros round to
    themselves. *)

(** Nearest integer to [n / d] for [d > 0], ties to even. *)
Definition round_half_even (n d : Z) : Z :=
  let q := n / d in
  let r := n mod d in
  match 2 * r ?= d with
  | Lt => q
  | Gt => q + 1
  | Eq => if Z.even q then q else q + 1
  end.

(** The float of an integer (exact below 2^53). *)
Definition float_of_Z (n : Z) : float :=
  match n with
  | Z0 => 0%float
  | Zpos p => SF2Prim (S754_finite false p 0)
  | Zneg p => SF2Prim (S754_finite true p 0)
  end.

(** [x = (-1)^s * m * 2^e] with a 53-bit [m]. From [e >= -6] on, the
    floats are at least 1/64 apart, so the float nearest to the
    rounded decimal is [x] itself; below, the rounded numerator is
    under 2^53 and the correctly rounded division by 100 gives the
    nearest float. *)
Definition round2 (x : float) : float :=
  match Prim2SF x with
  | S754_finite s m e =>
      if (-6 <=? e)%Z then x
      else
        let n := round_half_even (Zpos m * 100) (2 ^ (- e)) in
        let r := PrimFloat.div (float_of_Z n) 100%float in
        if s then PrimFloat.opp r else r
  | _ => x
  end.

(** *** [str.upper], [str.join], [str.split] (ASCII) *)

Definition upper_char (c : ascii) : ascii :=
  let n := nat_of_ascii c in
  if ((97 <=? n) && (n <=? 122))%nat then ascii_of_nat (n - 32) else c.

Fixpoint upper (s : string) : string :=
  match s with
  | EmptyString => EmptyString
  | String c s' => String (upper_char c) (upper s')
  end.

Definition lower_char (c : ascii) : ascii :=
  let n := nat_of_ascii c in
  if ((65 <=? n) && (n <=? 90))%nat then ascii_of_nat (n + 32) else c.

Fixpoint lower (s : string) : string :=
  match s with
  | EmptyString => EmptyString
  | String c s' => String (lower_char c) (lower s')
  end.

(** [data.split(":", 1)] for a [data] that contains a colon. *)
Fixpoint split_colon (s : string) : option (string * string) :=
  match s with
  | EmptyString => None
  | String c s' =>
      if Ascii.eqb c ":"%char then Some (EmptyString, s')
      else match split_colon s' with
           | Some (a, b) => Some (String c a, b)
           | None => None
           end
  end.

(** [sep.join(parts)] *)
Definition join (sep : string) (parts : list string) : string :=
  String.concat sep parts.

(** [c.isspace()] on the ASCII range. *)
Definition isspace (c : ascii) : bool :=
  let n := nat_of_ascii c in
  (((9 <=? n) && (n <=? 13)) || ((28 <=? n) && (n <=? 32)))%nat.

(** [s.split()] without arguments: the maximal runs of non-space
    characters, in order. [cur] is the run being read. *)
Fixpoint split_from (cur : string) (s : string) : list string :=
  match s with
  | EmptyString => if decide (cur = "") then [] else [cur]
  | String c s' =>
      if isspace c
      then (if decide (cur = "") then split_from "" s'
            else cur :: split_from "" s')
      else split_from (cur ++ String c "") s'
  end.

Definition split (s : string) : list string := split_from "" s.

(** A word: not empty, no white space. *)
Fixpoint nospace (s : string) : bool :=
  match s with
  | EmptyString => true
  | String c s' => negb (isspace c) && nospace s'
  end.

Definition is_word (s : string) : bool :=
  negb (String.eqb s "") && nospace s.

End Py.

(** ** The global random generator

    The Mersenne Twister is abstracted to the stream of raw values it
    will produce: every behaviour of the generator is some stream. *)

Record Random := mkRandom {
  draws : nat → Z;
  cursor : nat;
}.

Module Rng.

Definition next (r : Random) : Z * Random :=
  (draws r (cursor r), mkRandom (draws r) (S (cursor r))).

(** [random.random()]: a 53-bit integer scaled by 2^-53, a float in [0, 1). *)
Definition random (r : Random) : float * Random :=
  let '(x, r') := next r in
  (PrimFloat.div (Py.float_of_Z (x mod 2 ^ 53)) (Py.float_of_Z (2 ^ 53)), r').

(** [_randbelow(n)]: an integer in [0, n). *)
Definition randbelow (n : Z) (r : Random) : Z * Random :=
  let '(x, r') := next r in
  (x mod n, r').


(** [random.sample(population, k)] for [k <= len(population)], by the
    pool algorithm of the library: pick [pool[j]] with [j] below the
    number of live entries, move the last live entry into slot [j],
    and shrink the live part by one. (The [ValueError] raised for
    [k > len(population)] is not modelled: the one call site samples
    24 of 60.) *)
Fixpoint sample_pool {A} (pool : list A) (k : nat) (r : Random)
    : list A * Random :=
  match k with
  | O => ([], r)
  | S k' =>
      let n := length pool in
      let '(j, r1) := randbelow (Z.of_nat n) r in
      let j := Z.to_nat j in
      match pool !! j, pool !! (n - 1)%nat with
      | Some x, Some y =>
          let pool' := take (n - 1) (<[j := y]> pool) in
          let '(rest, r2) := sample_pool pool' k' r1 in
          (x :: rest, r2)
      | _, _ => ([], r1)
      end
  end.

Definition sample {A} (population : list A) (k : nat) (r : Random)
    : list A * Random :=
  sample_pool population k r.





End Rng.

(** ** Seed phrases *)

Definition words : list string :=
  [ "abandon"; "ability"; "able"; "about"; "above"; "absent"; "absorb";
    "abstract"; "absurd"; "abuse";
    "access"; "accident"; "account"; "accuse"; "achieve"; "acid";
    "acoustic"; "acquire"; "across"; "act";
    "action"; "actor"; "actual"; "adapt"; "add"; "addict"; "address";
    "adjust"; "admit"; "adult";
    "advance"; "advice"; "aerobic"; "affair"; "afford"; "afraid"; "again";
    "age"; "agent"; "agree";
    "ahead"; "aim"; "air"; "airport"; "aisle"; "alarm"; "album"; "alcohol";
    "alert"; "alien";
    "all"; "alley"; "allow"; "almost"; "alone"; "alpha"; "already"; "also";
    "alter"; "always" ].

(** ** Data and storage *)

Inductive DealStatus :=
| NEW                (* created, awaiting buyer deposit *)
| PENDING_DEPOSIT    (* deposit requested, waiting for confirmation *)
| FUNDED             (* buyer deposited funds (verified) *)
| DELIVERED          (* seller marked as delivered *)
| RELEASED           (* buyer released to seller *)
| DISPUTED           (* either party opened a dispute *)
| RESOLVED           (* admin resolved dispute *)
| CANCELED.          (* admin or mutual cancel *)

#[global] Instance DealStatus_eq_dec : EqDecision DealStatus.
Proof. solve_decision. Defined.

(** The states the specification calls terminal. *)
Definition terminal (s : DealStatus) : bool :=
  match s with
  | RELEASED | RESOLVED | CANCELED => true
  | _ => false
  end.

(** The dataclass [Deal]. *)
Module Deal.
Record t := mk {
  id : Z;
  buyer_id : Z;
  buyer_username : option string;
  seller_id : Z;
  seller_username : option string;
  amount : float;
  currency : string;
  description : string;
  status : DealStatus;
  escrow_balance : float;
  created_at : string;
}.
End Deal.

(** A row of the table [deals]: the columns of [CREATE TABLE] but the
    primary key [id], which is the key the row is stored under. *)
Module Row.
Record t := mk {
  buyer_id : Z;
  buyer_username : option string;
  seller_id : Z;
  seller_username : option string;
  amount : float;
  currency : string;
  description : string;
  status : DealStatus;
  escrow_balance : float;
  seed_phrase : option string;
  seller_seed_phrase : option string;
  created_at : string;
}.

(** [SET status=?] *)
Definition set_status (s : DealStatus) (r : t) : t :=
  mk (buyer_id r) (buyer_username r) (seller_id r)
     (seller_username r) (amount r) (currency r) (description r)
     s (escrow_balance r) (seed_phrase r) (seller_seed_phrase r)
     (created_at r).

(** [SET escrow_balance=?] *)
Definition set_escrow_balance (b : float) (r : t) : t :=
  mk (buyer_id r) (buyer_username r) (seller_id r)
     (seller_username r) (amount r) (currency r) (description r)
     (status r) b (seed_phrase r) (seller_seed_phrase r) (created_at r).

(** [SET seed_phrase=?, seller_seed_phrase=?] *)
Definition set_seed_phrases (a b : string) (r : t) : t :=
  mk (buyer_id r) (buyer_username r) (seller_id r)
     (seller_username r) (amount r) (currency r) (description r)
     (status r) (escrow_balance r) (Some a) (Some b) (created_at r).

(** The [Deal] that [get_deal] builds from the row with key [id]. *)
Definition to_deal (id : Z) (r : t) : Deal.t :=
  Deal.mk id (buyer_id r) (buyer_username r) (seller_id r)
          (seller_username r) (amount r) (currency r) (description r)
          (status r) (escrow_balance r) (created_at r).
End Row.

(** The database file: the rows of [deals] by id, and the largest row
    id ever handed out, which AUTOINCREMENT keeps in [sqlite_sequence]
    (a [DELETE] does not reset it). *)
Record Database := mkDatabase {
  deals : gmap Z Row.t;
  sqlite_sequence : Z;
}.

(** [CREATE TABLE IF NOT EXISTS] on a fresh file. *)
Definition empty_db : Database := mkDatabase ∅ 0.

(** The largest row id present (0 for an empty table). *)
Definition max_rowid (m : gmap Z Row.t) : Z :=
  map_fold (λ k _ acc, Z.max k acc) 0 m.

(** The row id AUTOINCREMENT gives the next inserted row: one more than
    the largest id that ever existed in the table. *)
Definition next_rowid (d : Database) : Z :=
  Z.max (sqlite_sequence d) (max_rowid (deals d)) + 1.

(** ** Messages and log lines *)

(** The bodies of the HTML messages, by the data they interpolate. *)
Inductive Html :=
| deal_summary_md (d : Deal.t)             (* with [main_menu_kb d] *)
| deposit_message (d : Deal.t) (btc_address : string)
| deposit_requested (d : Deal.t)           (* [current_text] *)
| status_message (d : Deal.t)
| address_message (d : Deal.t)
| seed_message (d : Deal.t) (buyer_side : bool) (half : option string).

Inductive LogLine :=
| log_verifying (deal_id : Z) (expected_amount : float) (btc_address : string)
| log_verified (deal_id : Z)
| log_no_deposit (deal_id : Z)
| log_scheduling (deal_id : Z)
| log_deposit_success (d : Deal.t)
| log_deposit_failed (d : Deal.t)
| log_seller_request (deal_id : Z) (seller_seed_half : string)
| log_samples_loaded (count : nat).

Inductive Event :=
| reply_text (text : string)           (* [message.reply_text] *)
| reply_html (body : Html)             (* [message.reply_html] *)
| answer (text : string)               (* [query.answer(text, show_alert=True)] *)
| answer_empty                         (* [query.answer()] *)
| edit_message_text (body : Html)      (* [query.edit_message_text] *)
| print (line : LogLine).

(** An asyncio task created by [asyncio.create_task] and still asleep:
    the arguments of [schedule_deposit_verification]. *)
Record Task := mkTask {
  task_deal_id : Z;
  task_expected_amount : float;
  task_btc_address : string;
}.

(** ** The world the handlers run in *)

Record World := mkWorld {
  db : Database;
  ADMIN_IDS : gset Z;
  rng : Random;
  utcnow : string;          (* [dt.datetime.utcnow().isoformat()] *)
  tasks : list Task;
  trace : list Event;       (* oldest first *)
}.

(** A call returns a value or raises; the world it leaves behind is
    kept either way (every write is committed where it is made). *)
Inductive Exception :=
| ValueError
| AttributeError
| ZeroDivisionError
| OverflowError           (* a Python [int] that SQLite cannot hold *)
| OperationalError.       (* [sqlite3.OperationalError] *)

Inductive Result (A : Type) :=
| Returns (a : A)
| Raises (e : Exception).
Arguments Returns {A} a.
Arguments Raises {A} e.

Definition M (A : Type) : Type := World → Result A * World.

Definition ret {A} (a : A) : M A := λ w, (Returns a, w).
Definition raise {A} (e : Exception) : M A := λ w, (Raises e, w).
Definition bind {A B} (m : M A) (k : A → M B) : M B :=
  λ w, match m w with
       | (Returns a, w') => k a w'
       | (Raises e, w') => (Raises e, w')
       end.

Declare Scope M_scope.
Delimit Scope M_scope with M.
Notation "x <- m ;; k" := (bind m (λ x, k))
  (at level 100, m at next level, right associativity) : M_scope.
Notation "m ;;; k" := (bind m (λ _, k))
  (at level 100, right associativity) : M_scope.
Local Open Scope M_scope.

(** The final world of a handler. *)
Definition exec {A} (m : M A) (w : World) : World := snd (m w).

Definition with_db (f : Database → Database) : M unit :=
  λ w, (Returns tt,
        mkWorld (f (db w)) (ADMIN_IDS w) (rng w) (utcnow w) (tasks w) (trace w)).

Definition with_rng {A} (f : Random → A * Random) : M A :=
  λ w, let '(a, r) := f (rng w) in
       (Returns a,
        mkWorld (db w) (ADMIN_IDS w) r (utcnow w) (tasks w) (trace w)).

Definition emit (e : Event) : M unit :=
  λ w, (Returns tt,
        mkWorld (db w) (ADMIN_IDS w) (rng w) (utcnow w) (tasks w)
          (trace w ++ [e])).

Definition create_task (t : Task) : M unit :=
  λ w, (Returns tt,
        mkWorld (db w) (ADMIN_IDS w) (rng w) (utcnow w) (tasks w ++ [t])
          (trace w)).

(** *** The store functions *)

(** An INTEGER of SQLite is a signed 64-bit integer. A Python [int] is
    not bounded: [sqlite3] raises [OverflowError] ("Python int too large
    to convert to SQLite INTEGER") when it is given one outside that
    range as the parameter of a statement, before the statement runs. *)
Definition sqlite_int (n : Z) : bool :=
  ((- 2 ^ 63 <=? n) && (n <? 2 ^ 63))%Z.

Definition get_deal (deal_id : Z) : M (option Deal.t) :=
  λ w, if sqlite_int deal_id
       then (Returns (Row.to_deal deal_id <$> deals (db w) !! deal_id), w)
       else (Raises OverflowError, w).

(** [UPDATE deals SET ... WHERE id=?] changes the row with that id when
    there is one and nothing otherwise, and raises nothing for an id
    that is not in the table; only an id that SQLite cannot hold makes
    the statement raise. *)
Definition sql_update (f : Row.t → Row.t) (deal_id : Z) : M unit :=
  if sqlite_int deal_id
  then with_db (λ d, mkDatabase (alter f deal_id (deals d)) (sqlite_sequence d))
  else raise OverflowError.

Definition update_deal_status (deal_id : Z) (status : DealStatus) : M unit :=
  sql_update (Row.set_status status) deal_id.

Definition update_deal_balance (deal_id : Z) (new_balance : float) : M unit :=
  sql_update (Row.set_escrow_balance (Py.round2 new_balance)) deal_id.

Definition update_deal_seed_phrases (deal_id : Z)
    (seed_phrase seller_seed_phrase : string) : M unit :=
  sql_update (Row.set_seed_phrases seed_phrase seller_seed_phrase) deal_id.

(** The [sqlite3.OperationalError] it catches is that of a table
    without the two columns, which no [Database] of the model is; the
    [OverflowError] of an id that SQLite cannot hold is not caught. *)
Definition safe_get_seed_phrases (deal_id : Z)
    : M (option string * option string) :=
  λ w, if sqlite_int deal_id
       then (Returns match deals (db w) !! deal_id with
                     | Some row =>
                         (Row.seed_phrase row, Row.seller_seed_phrase row)
                     | None => (None, None)
                     end, w)
       else (Raises OverflowError, w).

(** *** Seed phrase management *)

Definition generate_seed_phrase : M string :=
  seed_words <- with_rng (Rng.sample words 24);;
  ret (Py.join " " seed_words).

Definition split_seed_phrase (seed_phrase : string) : string * string :=
  let ws := Py.split seed_phrase in
  let half1 := Py.join " " (take 12 ws) in
  let half2 := Py.join " " (drop 12 ws) in
  (half1, half2).

(** Python's truth value of an [Optional[str]]: [None] and the empty
    string are false. *)
Definition truthy (s : option string) : bool :=
  match s with
  | None => false
  | Some s => negb (String.eqb s "")
  end.

Definition ensure_seed_phrases_exist (deal_id : Z)
    : M (option string * option string) :=
  seeds <- safe_get_seed_phrases deal_id;;
  let '(buyer_seed, seller_seed) := seeds in
  if negb (truthy buyer_seed) || negb (truthy seller_seed) then
    full_seed_phrase <- generate_seed_phrase;;
    let '(buyer_seed_half, seller_seed_half) :=
      split_seed_phrase full_seed_phrase in
    update_deal_seed_phrases deal_id buyer_seed_half seller_seed_half;;;
    ret (Some buyer_seed_half, Some seller_seed_half)
  else ret (buyer_seed, seller_seed).

(** [INSERT INTO deals (...)]: the new row gets the next row id, which
    is the cursor's [lastrowid]; [created_at] is read from the clock.
    When the counter of AUTOINCREMENT has reached the largest row id
    there is no next one, and the INSERT fails (SQLITE_FULL: "database
    or disk is full"). *)
Definition sql_insert (new_row : string → Row.t) : M Z :=
  λ w, let k := next_rowid (db w) in
       if sqlite_int k
       then (Returns k,
             mkWorld
               (mkDatabase (<[k := new_row (utcnow w)]> (deals (db w))) k)
               (ADMIN_IDS w) (rng w) (utcnow w) (tasks w) (trace w))
       else (Raises OperationalError, w).

(** [insert_deal]: the INSERT, then the initial seed phrases. *)
Definition insert_deal (buyer_id : Z) (buyer_username : option string)
    (seller_id : Z) (seller_username : option string)
    (amount : float) (currency description : string) : M Z :=
  deal_id <- sql_insert (λ now,
    Row.mk buyer_id buyer_username seller_id seller_username
      amount (Py.upper currency) description NEW 0%float None None now);;
  full_seed_phrase <- generate_seed_phrase;;
  let '(buyer_seed_half, seller_seed_half) :=
    split_seed_phrase full_seed_phrase in
  update_deal_seed_phrases deal_id buyer_seed_half seller_seed_half;;;
  ret deal_id.

(** ** Blockchain verification (simulated) *)

(** [verify_btc_deposit], after its two-second sleep: one draw of
    [random.random()] decides; on success the deal is written FUNDED
    with the expected amount as balance. The deal is not read. *)
Definition verify_btc_deposit (deal_id : Z) (expected_amount : float)
    (btc_address : string) : M (bool * string) :=
  emit (print (log_verifying deal_id expected_amount btc_address));;;
  x <- with_rng Rng.random;;
  if PrimFloat.ltb x 0.9%float then
    update_deal_status deal_id FUNDED;;;
    update_deal_balance deal_id expected_amount;;;
    emit (print (log_verified deal_id));;;
    ret (true, "Deposit verified successfully")
  else
    emit (print (log_no_deposit deal_id));;;
    ret (false, "No deposit found on blockchain").

Definition notify_deposit_success (deal_id : Z) : M unit :=
  d <- get_deal deal_id;;
  match d with
  | None => ret tt
  | Some d => emit (print (log_deposit_success d))
  end.

Definition notify_deposit_failed (deal_id : Z) : M unit :=
  d <- get_deal deal_id;;
  match d with
  | None => ret tt
  | Some d => emit (print (log_deposit_failed d))
  end.

(** [schedule_deposit_verification] from the end of its 30 minute
    sleep on (its first line, printed when the task starts, is emitted
    by the handler that creates the task). *)
Definition schedule_deposit_verification (deal_id : Z)
    (expected_amount : float) (btc_address : string) : M unit :=
  r <- verify_btc_deposit deal_id expected_amount btc_address;;
  let '(success, message) := r in
  if success then notify_deposit_success deal_id
  else notify_deposit_failed deal_id.

(** The [n]-th sleeping task wakes up and runs to its end. *)
Definition wake_task (n : nat) : M unit :=
  λ w, match tasks w !! n with
       | None => (Returns tt, w)
       | Some t =>
           schedule_deposit_verification (task_deal_id t)
             (task_expected_amount t) (task_btc_address t)
             (mkWorld (db w) (ADMIN_IDS w) (rng w) (utcnow w)
                (delete n (tasks w)) (trace w))
       end.

(** ** Bot flows *)

Record User := mkUser {
  user_id : Z;
  username : option string;
}.

(** What a handler is called with: an [Update] carrying a command
    message, or the [CallbackQuery] of a button (whose message may be
    missing). *)
Inductive Source :=
| command
| callback_query (message : bool).

Record Update := mkUpdate {
  from_user : User;
  source : Source;
  args : list string;       (* [context.args] *)
}.

(** [hasattr(update_or_query, "message") and update_or_query.message] *)
Definition has_message (u : Update) : bool :=
  match source u with
  | command => true
  | callback_query m => m
  end.

(** [hasattr(update_or_query, "edit_message_text")] *)
Definition has_edit_message_text (u : Update) : bool :=
  match source u with
  | command => false
  | callback_query _ => true
  end.

Definition _notify (u : Update) (text : string) : M unit :=
  if has_message u then emit (reply_text text) else emit (answer text).

Definition _edit_or_reply (u : Update) (html_text : Html) : M unit :=
  if has_message u then emit (reply_html html_text)
  else emit (edit_message_text html_text).

(** [d = get_deal(d.id)] followed by a message built from [d], which
    raises when [d] is [None]. *)
Definition reread (deal_id : Z) (k : Deal.t → M unit) : M unit :=
  d <- get_deal deal_id;;
  match d with
  | None => raise AttributeError
  | Some d => k d
  end.

Definition ask_seller_btc_address (deal_id : Z) (u : Update)
    (seller_seed_half : string) : M unit :=
  d <- get_deal deal_id;;
  match d with
  | None => ret tt
  | Some d =>
      emit (print (log_seller_request deal_id seller_seed_half));;;
      if has_edit_message_text u
      then emit (edit_message_text (deposit_requested d))
      else ret tt
  end.

Definition simulate_deposit_logic (u : Update) (deal_id : Z) : M unit :=
  d <- get_deal deal_id;;
  match d with
  | None => _notify u "Deal not found."
  | Some d =>
      if negb (bool_decide (Deal.status d = NEW)) then
        _notify u "Deposit allowed only when status is NEW."
      else
        let btc_address := "bc1q7y4j57c5965e30dmd6ez2s9hschuwfvga82guf" in
        full_seed_phrase <- generate_seed_phrase;;
        let '(buyer_seed_half, seller_seed_half) :=
          split_seed_phrase full_seed_phrase in
        update_deal_seed_phrases deal_id buyer_seed_half seller_seed_half;;;
        update_deal_status deal_id PENDING_DEPOSIT;;;
        (if has_message u
         then emit (reply_html (deposit_message d btc_address))
         else emit (answer "Deposit instructions sent");;;
              emit (edit_message_text (deposit_message d btc_address)));;;
        create_task (mkTask deal_id (Deal.amount d) btc_address);;;
        emit (print (log_scheduling deal_id));;;
        ask_seller_btc_address deal_id u seller_seed_half
  end.

Definition mark_delivered (u : Update) (deal_id : Z) : M unit :=
  d <- get_deal deal_id;;
  match d with
  | None => _notify u "Deal not found."
  | Some d =>
      if negb (bool_decide (Deal.status d ∈ [FUNDED; DISPUTED])) then
        _notify u "You can mark delivered only when FUNDED or DISPUTED."
      else
        update_deal_status (Deal.id d) DELIVERED;;;
        reread (Deal.id d) (λ d, _edit_or_reply u (deal_summary_md d))
  end.

Definition release_to_seller (u : Update) (deal_id : Z) : M unit :=
  d <- get_deal deal_id;;
  match d with
  | None => _notify u "Deal not found."
  | Some d =>
      if negb (bool_decide (Deal.status d = DELIVERED)) then
        _notify u "Release allowed only after delivery."
      else
        update_deal_status (Deal.id d) RELEASED;;;
        update_deal_balance (Deal.id d) 0%float;;;
        reread (Deal.id d) (λ d, _edit_or_reply u (deal_summary_md d))
  end.

Definition open_dispute (u : Update) (deal_id : Z) : M unit :=
  d <- get_deal deal_id;;
  match d with
  | None => _notify u "Deal not found."
  | Some d =>
      if negb (bool_decide (Deal.status d ∈ [FUNDED; DELIVERED])) then
        _notify u "Dispute allowed only when FUNDED or DELIVERED."
      else
        update_deal_status (Deal.id d) DISPUTED;;;
        reread (Deal.id d) (λ d, _edit_or_reply u (deal_summary_md d))
  end.

Definition check_deposit_status (u : Update) (deal_id : Z) : M unit :=
  d <- get_deal deal_id;;
  match d with
  | None => _notify u "Deal not found."
  | Some d =>
      if negb (bool_decide (Deal.status d = PENDING_DEPOSIT)) then
        _notify u "This deal is not in deposit pending status."
      else _edit_or_reply u (status_message d)
  end.

Definition request_btc_address (u : Update) (deal_id : Z) : M unit :=
  d <- get_deal deal_id;;
  match d with
  | None => _notify u "Deal not found."
  | Some d =>
      if negb (bool_decide (Deal.status d = PENDING_DEPOSIT)) then
        _notify u "This deal is not in deposit pending status."
      else _edit_or_reply u (address_message d)
  end.

(** ** Commands, buttons and start-up

    Three things the program takes from outside its own text:
    - [int]: Python's built-in [int] on a [str], [None] standing for
      the [ValueError] of a text that is not a number;
    - [exploit_descriptions]: the fixed list of sample descriptions of
      [add_sample_deals], whose content no property depends on;
    - [seed42]: the stream of the generator after [random.seed(42)]. *)

Section Bot.

Variable int : string → option Z.
Variable exploit_descriptions : list string.
Variable seed42 : nat → Z.

(** *** Commands that parse a deal id and call a flow *)

Definition simulate_deposit_cmd (u : Update) : M unit :=
  match args u with
  | [] => emit (reply_text "Usage: /deposit <id>")
  | a :: _ =>
      match int a with
      | None => emit (reply_text "Deal id must be a number.")
      | Some deal_id => simulate_deposit_logic u deal_id
      end
  end.

Definition _release_cmd_alias (u : Update) : M unit :=
  match args u with
  | [] => emit (reply_text "Usage: /release <id>")
  | a :: _ =>
      match int a with
      | None => emit (reply_text "Deal id must be a number.")
      | Some deal_id => release_to_seller u deal_id
      end
  end.

Definition _dispute_cmd_alias (u : Update) : M unit :=
  match args u with
  | [] => emit (reply_text "Usage: /dispute <id>")
  | a :: _ =>
      match int a with
      | None => emit (reply_text "Deal id must be a number.")
      | Some deal_id => open_dispute u deal_id
      end
  end.

Definition show_deal (u : Update) : M unit :=
  match args u with
  | [] => emit (reply_text "Usage: /deal <id>")
  | a :: _ =>
      match int a with
      | None => emit (reply_text "Deal id must be a number.")
      | Some deal_id =>
          d <- get_deal deal_id;;
          match d with
          | None => emit (reply_text "Deal not found.")
          | Some d => emit (reply_html (deal_summary_md d))
          end
      end
  end.

(** *** Admin actions *)

Definition is_admin (u : Update) : M bool :=
  λ w, (Returns (bool_decide (user_id (from_user u) ∈ ADMIN_IDS w)), w).

Definition resolve_cmd (u : Update) : M unit :=
  adm <- is_admin u;;
  if negb adm then emit (reply_text "Admin only.")
  else
    match args u with
    | a0 :: a1 :: _ =>
        match int a0 with
        | None => emit (reply_text "Deal id must be a number.")
        | Some deal_id =>
            let winner := Py.lower a1 in
            d <- get_deal deal_id;;
            match d with
            | None => emit (reply_text "Deal not found.")
            | Some d =>
                if negb (bool_decide
                           (Deal.status d ∈ [DISPUTED; FUNDED; DELIVERED]))
                then emit (reply_text
                       "Can resolve only a disputed/funded/delivered deal.")
                else if negb (bool_decide (winner ∈ ["buyer"; "seller"]))
                then emit (reply_text "Winner must be 'buyer' or 'seller'.")
                else
                  (if String.eqb winner "buyer"
                   then update_deal_balance (Deal.id d) 0%float   (* refund *)
                   else update_deal_balance (Deal.id d) 0%float);;;
                  update_deal_status (Deal.id d) RESOLVED;;;
                  reread (Deal.id d)
                    (λ d, emit (reply_html (deal_summary_md d)))
            end
        end
    | _ => emit (reply_text "Usage: /resolve <id> <winner: buyer|seller>")
    end.

Definition cancel_cmd (u : Update) : M unit :=
  adm <- is_admin u;;
  if negb adm then emit (reply_text "Admin only.")
  else
    match args u with
    | [] => emit (reply_text "Usage: /cancel <id>")
    | a :: _ =>
        match int a with
        | None => emit (reply_text "Deal id must be a number.")
        | Some deal_id =>
            d <- get_deal deal_id;;
            match d with
            | None => emit (reply_text "Deal not found.")
            | Some d =>
                update_deal_status (Deal.id d) CANCELED;;;
                update_deal_balance (Deal.id d) 0%float;;;
                reread (Deal.id d)
                  (λ d, emit (reply_html (deal_summary_md d)))
            end
        end
    end.

(** *** [/seed]: the caller's half *)

(** [(d.x_id == uid) or (username and d.x_username == f"@{username}")] *)
Definition involved (uid : Z) (username : option string)
    (x_id : Z) (x_username : option string) : bool :=
  bool_decide (x_id = uid)
  || (truthy username
      && bool_decide (x_username = (λ n, "@" ++ n) <$> username)).

Definition show_seed_phrase (u : Update) : M unit :=
  match args u with
  | [] => emit (reply_text "Usage: /seed <deal_id>")
  | a :: _ =>
      match int a with
      | None => emit (reply_text "Deal ID must be a number.")
      | Some deal_id =>
          let uid := user_id (from_user u) in
          let username := username (from_user u) in
          d <- get_deal deal_id;;
          match d with
          | None => emit (reply_text "Deal not found.")
          | Some d =>
              let is_buyer := involved uid username (Deal.buyer_id d)
                                (Deal.buyer_username d) in
              let is_seller := involved uid username (Deal.seller_id d)
                                 (Deal.seller_username d) in
              if negb (is_buyer || is_seller) then
                emit (reply_text "You are not involved in this deal.")
              else
                seeds <- ensure_seed_phrases_exist deal_id;;
                let '(buyer_seed, seller_seed) := seeds in
                if is_buyer
                then emit (reply_html (seed_message d true buyer_seed))
                else emit (reply_html (seed_message d false seller_seed))
          end
      end
  end.

(** *** Callbacks *)

Definition on_button (u : Update) (data : string) : M unit :=
  emit answer_empty;;;
  match Py.split_colon data with
  | None => ret tt
  | Some (action, sid) =>
      match int sid with
      | None => ret tt
      | Some deal_id =>
          if String.eqb action "deposit" then simulate_deposit_logic u deal_id
          else if String.eqb action "check_deposit"
          then check_deposit_status u deal_id
          else if String.eqb action "provide_address"
          then request_btc_address u deal_id
          else if String.eqb action "delivered" then mark_delivered u deal_id
          else if String.eqb action "release" then release_to_seller u deal_id
          else if String.eqb action "dispute" then open_dispute u deal_id
          else if String.eqb action "refresh" then
            d <- get_deal deal_id;;
            match d with
            | None => ret tt
            | Some d => emit (edit_message_text (deal_summary_md d))
            end
          else ret tt
      end
  end.

(** *** Start-up: [init_db] and [add_sample_deals] *)









(** *** The running system

    What can happen once the bot is polling: a command, a button, the
    end of the [/newdeal] conversation, or a sleeping task waking up.
    ([/mydeals], [/alldeals] and [/find] only SELECT and format.) *)
Inductive Request :=
| newdeal (u : Update) (buyer_id : Z) (buyer_username : option string)
    (seller_id : Z) (seller_username : option string)
    (amount : float) (currency description : string)
| cmd_deal (u : Update)
| cmd_deposit (u : Update)
| cmd_release (u : Update)
| cmd_dispute (u : Update)
| cmd_seed (u : Update)
| cmd_resolve (u : Update)
| cmd_cancel (u : Update)
| button (u : Update) (data : string)
| timer (n : nat).

Definition handle (r : Request) : M unit :=
  match r with
  | newdeal u b bu s su amount currency description =>
      deal_id <- insert_deal b bu s su amount currency description;;
      reread deal_id (λ d, emit (reply_html (deal_summary_md d)))
  | cmd_deal u => show_deal u
  | cmd_deposit u => simulate_deposit_cmd u
  | cmd_release u => _release_cmd_alias u
  | cmd_dispute u => _dispute_cmd_alias u
  | cmd_seed u => show_seed_phrase u
  | cmd_resolve u => resolve_cmd u
  | cmd_cancel u => cancel_cmd u
  | button u data => on_button u data
  | timer n => wake_task n
  end.

Fixpoint run (rs : list Request) (w : World) : World :=
  match rs with
  | [] => w
  | r :: rs' => run rs' (exec (handle r) w)
  end.

End Bot.

(** A reader of plain decimal numbers, on which it agrees with Python's
    [int]; used where a concrete run is evaluated. *)
Definition digit (c : ascii) : option Z :=
  let n := nat_of_ascii c in
  if ((48 <=? n) && (n <=? 57))%nat then Some (Z.of_nat (n - 48)) else None.

Fixpoint int_digits (acc : Z) (s : string) : option Z :=
  match s with
  | EmptyString => Some acc
  | String c s' =>
      match digit c with
      | Some k => int_digits (10 * acc + k) s'
      | None => None
      end
  end.

Definition int_decimal (s : string) : option Z :=
  match s with
  | EmptyString => None
  | _ => int_digits 0 s
  end.

(** The world after [build_app] on a fresh database file, before
    [init_db] has run: an empty table and the hard-coded admin. *)
Definition fresh_world (stream : nat → Z) (now : string) : World :=
  mkWorld empty_db {[ 6127489137 ]} (mkRandom stream 0) now [] [].

(** ** The state machine the handlers implement

    The operations of the specification, as changes of one row. *)

Module Op.
Inductive t :=
| initiate_deposit
| mark_delivered
| release
| open_dispute
| resolve
| cancel
| verify_deposit
| ensure_issued.
End Op.

(** [fires op row row']: [op] takes [row] to [row'], in the source
    states and with the effect the code gives it. *)
Definition fires (op : Op.t) (row row' : Row.t) : Prop :=
  match op with
  | Op.initiate_deposit =>
      Row.status row = NEW
      ∧ ∃ half1 half2,
          row' = Row.set_status PENDING_DEPOSIT
                   (Row.set_seed_phrases half1 half2 row)
  | Op.mark_delivered =>
      Row.status row ∈ [FUNDED; DISPUTED]
      ∧ row' = Row.set_status DELIVERED row
  | Op.release =>
      Row.status row = DELIVERED
      ∧ row' = Row.set_escrow_balance 0%float (Row.set_status RELEASED row)
  | Op.open_dispute =>
      Row.status row ∈ [FUNDED; DELIVERED]
      ∧ row' = Row.set_status DISPUTED row
  | Op.resolve =>
      Row.status row ∈ [DISPUTED; FUNDED; DELIVERED]
      ∧ row' = Row.set_status RESOLVED (Row.set_escrow_balance 0%float row)
  | Op.cancel =>
      row' = Row.set_escrow_balance 0%float (Row.set_status CANCELED row)
  | Op.verify_deposit =>
      ∃ expected_amount,
        row' = Row.set_escrow_balance (Py.round2 expected_amount)
                 (Row.set_status FUNDED row)
  | Op.ensure_issued =>
      truthy (Row.seed_phrase row) && truthy (Row.seller_seed_phrase row)
      = false
      ∧ ∃ half1 half2, row' = Row.set_seed_phrases half1 half2 row
  end.

Definition admin (w : World) (u : Update) : Prop :=
  user_id (from_user u) ∈ ADMIN_IDS w.

(** The operations a request can set off. *)
Definition triggers (w : World) (r : Request) (op : Op.t) : Prop :=
  match r, op with
  | cmd_deposit _, Op.initiate_deposit => True
  | cmd_release _, Op.release => True
  | cmd_dispute _, Op.open_dispute => True
  | cmd_seed _, Op.ensure_issued => True
  | cmd_resolve u, Op.resolve => admin w u
  | cmd_cancel u, Op.cancel => admin w u
  | button _ _, (Op.initiate_deposit | Op.mark_delivered
                 | Op.release | Op.open_dispute) => True
  | timer _, Op.verify_deposit => True
  | _, _ => False
  end.

(** Each row of [m] is in [m'], unchanged or taken there by one
    allowed operation. *)
Definition row_steps (allowed : Op.t → Prop) (m m' : gmap Z Row.t) : Prop :=
  ∀ id row, m !! id = Some row →
    ∃ row', m' !! id = Some row'
            ∧ (row' = row ∨ ∃ op, allowed op ∧ fires op row row').

Definition btc_address : string := "bc1q7y4j57c5965e30dmd6ez2s9hschuwfvga82guf".

(** What a request may do to the sleeping tasks: nothing, add the
    verification of a deal at its amount, or end one. *)
Definition task_steps (w w' : World) : Prop :=
  tasks w' = tasks w
  ∨ (∃ id row, sqlite_int id = true ∧ deals (db w) !! id = Some row
       ∧ tasks w' = (tasks w ++ [mkTask id (Row.amount row) btc_address])%list)
  ∨ (∃ n, tasks w' = delete n (tasks w)).

(** The columns no operation writes. *)
Definition same_deal (row row' : Row.t) : Prop :=
  Row.buyer_id row' = Row.buyer_id row
  ∧ Row.buyer_username row' = Row.buyer_username row
  ∧ Row.seller_id row' = Row.seller_id row
  ∧ Row.seller_username row' = Row.seller_username row
  ∧ Row.amount row' = Row.amount row
  ∧ Row.currency row' = Row.currency row
  ∧ Row.description row' = Row.description row
  ∧ Row.created_at row' = Row.created_at row.

(** The world with one more event at the end of its trace. *)
Definition said (e : Event) (w : World) : World :=
  mkWorld (db w) (ADMIN_IDS w) (rng w) (utcnow w) (tasks w) (trace w ++ [e]).

(** The message [_notify] sends. *)
Definition notice (u : Update) (text : string) : Event :=
  if has_message u then reply_text text else answer text.

(** [initiate_deposit] went through: the row is PENDING_DEPOSIT with
    fresh halves and is otherwise as before, and the verification of
    its amount has been scheduled. *)
Definition deposit_initiated (deal_id : Z) (row : Row.t) (w w' : World) : Prop :=
  (∃ half1 half2,
     deals (db w') !! deal_id
     = Some (Row.set_status PENDING_DEPOSIT
               (Row.set_seed_phrases half1 half2 row)))
  ∧ tasks w' = (tasks w ++ [mkTask deal_id (Row.amount row) btc_address])%list.

(** The draw [verify_btc_deposit] would make in [w] finds the deposit. *)
Definition deposit_found (w : World) : bool :=
  PrimFloat.ltb (Rng.random (rng w)).1 0.9%float.

(** The same request made by somebody else. *)
Definition acting_as (who : User) (u : Update) : Update :=
  mkUpdate who (source u) (args u).

(** The two halves stored for a deal, and whether both are there. *)
Definition halves (row : Row.t) : option string * option string :=
  (Row.seed_phrase row, Row.seller_seed_phrase row).

Definition issued (row : Row.t) : bool :=
  truthy (Row.seed_phrase row) && truthy (Row.seller_seed_phrase row).

(** Every sleeping task is for a deal in the table, at that deal's amount. *)
Definition tasks_match (w : World) : Prop :=
  ∀ t, t ∈ tasks w →
    sqlite_int (task_deal_id t) = true
    ∧ ∃ row, deals (db w) !! task_deal_id t = Some row
             ∧ Row.amount row = task_expected_amount t.

(** ** A deal to run things on

    One deal of 100 USD between alice (11) and bob (22) on an otherwise
    empty table, taken through its life; the sample rows of start-up
    play no part in what is shown on it. *)

Module Example.

Definition stream (n : nat) : Z := Z.of_nat n * 1234567891.
Definition now : string := "2024-01-01T00:00:00".

Definition alice : User := mkUser 11 (Some "alice").
Definition bob : User := mkUser 22 (Some "bob").
Definition mallory : User := mkUser 33 None.
Definition root : User := mkUser 6127489137 (Some "admin").

Definition cmd (who : User) (args : list string) : Update :=
  mkUpdate who command args.
Definition press (who : User) : Update :=
  mkUpdate who (callback_query true) [].

Definition go : list Request → World → World := run int_decimal.

Definition empty : World := fresh_world stream now.

Definition created : World :=
  go [newdeal (cmd alice []) 11 (Some "alice") 22 (Some "bob")
        100%float "usd" "Laptop sale"] empty.
Definition pending : World := go [cmd_deposit (cmd alice ["1"])] created.
Definition funded : World := go [timer 0] pending.
Definition delivered : World :=
  go [button (press bob) "delivered:1"] funded.
Definition released : World := go [cmd_release (cmd alice ["1"])] delivered.

(** The same deal, canceled by the admin while its verification sleeps. *)
Definition canceled : World := go [cmd_cancel (cmd root ["1"])] pending.

(** A deal whose amount has more than two decimals: 100 + 1/128. *)
Definition odd_amount : float := 100.0078125%float.
Definition odd_pending : World :=
  go [newdeal (cmd alice []) 11 (Some "alice") 22 (Some "bob")
        odd_amount "usd" "Laptop sale";
      cmd_deposit (cmd alice ["1"])] empty.


End Example.

(** * Properties *)

(** ** Strings: splitting what was joined *)

Lemma append_cons (c : ascii) (s t : string) :
  String c s ++ t = String c (s ++ t).
Proof. reflexivity. Qed.

Lemma append_empty_r (s : string) : s ++ "" = s.
Proof.
  induction s as [|c s IH]; [done|]. by rewrite append_cons, IH.
Qed.

Lemma append_assoc (a b c : string) : (a ++ b) ++ c = a ++ (b ++ c).
Proof.
  induction a as [|x a IH]; [done|]. by rewrite !append_cons, IH.
Qed.

Lemma split_from_word (w cur rest : string) :
  Py.nospace w = true →
  Py.split_from cur (w ++ rest) = Py.split_from (cur ++ w) rest.
Proof.
  revert cur. induction w as [|c w IH]; intros cur Hw.
  - by rewrite append_empty_r.
  - cbn in Hw. apply andb_true_iff in Hw as [Hc Hw].
    apply negb_true_iff in Hc.
    rewrite append_cons. cbn [Py.split_from]. rewrite Hc, IH by done.
    by rewrite append_assoc.
Qed.

Lemma is_word_spec (w : string) :
  Py.is_word w = true → w ≠ "" ∧ Py.nospace w = true.
Proof.
  unfold Py.is_word. intros [Hne Hns]%andb_true_iff. split; [|done].
  intros ->. discriminate.
Qed.

Lemma split_join (ws : list string) :
  Forall (λ w, Py.is_word w = true) ws →
  Py.split (Py.join " " ws) = ws.
Proof.
  unfold Py.split, Py.join.
  induction 1 as [|w ws Hw Hws IH]; [done|].
  apply is_word_spec in Hw as [Hne Hns].
  destruct ws as [|w2 ws].
  - cbn [String.concat]. rewrite <- (append_empty_r w) at 1.
    rewrite split_from_word by done.
    change ("" ++ w) with w. cbn [Py.split_from].
    by destruct (decide (w = "")).
  - change (String.concat " " (w :: w2 :: ws))
      with (w ++ String " " (String.concat " " (w2 :: ws))).
    rewrite split_from_word by done.
    change ("" ++ w) with w. cbn [Py.split_from].
    change (Py.isspace " ") with true. cbn iota.
    destruct (decide (w = "")); [done|]. by rewrite IH.
Qed.

(** ** Sampling without replacement *)

Lemma pool_step {A} (pool : list A) (j : nat) (x y : A) :
  pool !! j = Some x →
  pool !! (length pool - 1)%nat = Some y →
  x :: take (length pool - 1) (<[j := y]> pool) ≡ₚ pool.
Proof.
  intros Hj Hlast.
  assert (Hlen : (j < length pool)%nat) by (by eapply lookup_lt_Some).
  destruct (decide (j = (length pool - 1)%nat)) as [->|Hne].
  - rewrite list_insert_id by done.
    assert (x = y) as -> by congruence.
    rewrite <- (take_drop (length pool - 1) pool) at 3.
    rewrite (drop_S _ y (length pool - 1)) by done.
    rewrite drop_ge by lia.
    by rewrite Permutation_app_comm.
  - rewrite <- (take_drop (length pool - 1) pool) at 2 3.
    rewrite (drop_S _ y (length pool - 1)) by done.
    rewrite (drop_ge pool (S _)) by lia.
    set (init := take (length pool - 1) pool).
    assert (Hinit : length init = (length pool - 1)%nat)
      by (unfold init; rewrite length_take; lia).
    rewrite insert_app_l by lia.
    rewrite take_app_length' by (rewrite length_insert; lia).
    assert (Hx : init !! j = Some x)
      by (unfold init; rewrite lookup_take_lt by lia; done).
    rewrite (insert_take_drop init) by lia.
    rewrite <- (take_drop_middle init j x) at 3 by done.
    generalize (take j init) (drop (S j) init). intros l1 l2.
    rewrite (Permutation_app_comm _ [y]). cbn [app].
    rewrite <- !Permutation_middle. apply perm_swap.
Qed.

Lemma sample_pool_perm {A} (k : nat) : ∀ (pool : list A) (r : Random),
  ∃ rest, (Rng.sample_pool pool k r).1 ++ rest ≡ₚ pool.
Proof.
  induction k as [|k IH]; intros pool r; cbn [Rng.sample_pool].
  - by exists pool.
  - destruct (Rng.randbelow (Z.of_nat (length pool)) r) as [j r1].
    destruct (pool !! Z.to_nat j) as [x|] eqn:Hx; [|by exists pool].
    destruct (pool !! (length pool - 1)%nat) as [y|] eqn:Hy; [|by exists pool].
    pose proof (pool_step pool _ x y Hx Hy) as Hstep.
    destruct (IH (take (length pool - 1) (<[Z.to_nat j := y]> pool)) r1)
      as [rest Hrest].
    destruct (Rng.sample_pool _ k r1) as [picked r2]. cbn [fst] in *.
    exists rest. cbn [app]. by rewrite Hrest.
Qed.

Lemma randbelow_lt (n : nat) (r : Random) :
  (0 < n)%nat → (Z.to_nat (Rng.randbelow (Z.of_nat n) r).1 < n)%nat.
Proof.
  intros Hn. unfold Rng.randbelow, Rng.next. simpl.
  pose proof (Z.mod_pos_bound (draws r (cursor r)) (Z.of_nat n)). lia.
Qed.

Lemma sample_pool_length {A} (k : nat) : ∀ (pool : list A) (r : Random),
  (k ≤ length pool)%nat → length (Rng.sample_pool pool k r).1 = k.
Proof.
  induction k as [|k IH]; intros pool r Hk; cbn [Rng.sample_pool]; [done|].
  pose proof (randbelow_lt (length pool) r ltac:(lia)) as Hlt.
  destruct (Rng.randbelow (Z.of_nat (length pool)) r) as [j r1].
  cbn [fst] in Hlt.
  destruct (lookup_lt_is_Some_2 pool (Z.to_nat j) Hlt) as [x ->].
  destruct (lookup_lt_is_Some_2 pool (length pool - 1) ltac:(lia)) as [y ->].
  specialize (IH (take (length pool - 1) (<[Z.to_nat j := y]> pool)) r1).
  destruct (Rng.sample_pool _ k r1) as [picked r2]. cbn [fst length] in *.
  f_equal. apply IH. rewrite length_take, length_insert. lia.
Qed.

Lemma words_NoDup : NoDup words.
Proof. apply (bool_decide_unpack _). vm_compute. exact I. Qed.

Lemma words_are_words : Forall (λ w, Py.is_word w = true) words.
Proof. repeat constructor. Qed.

(** What [random.sample(words, 24)] returns, whatever the generator does. *)
Lemma sample_words (r : Random) :
  let ws := (Rng.sample words 24 r).1 in
  length ws = 24%nat ∧ NoDup ws ∧ ws ⊆ words
  ∧ Forall (λ w, Py.is_word w = true) ws.
Proof.
  unfold Rng.sample.
  destruct (sample_pool_perm 24 words r) as [rest Hperm].
  pose proof (sample_pool_length 24 words r ltac:(simpl; lia)) as Hlen.
  set (ws := (Rng.sample_pool words 24 r).1) in *. simpl.
  assert (Hsub : ws ⊆ words).
  { intros x Hx. rewrite <- Hperm. apply elem_of_app. by left. }
  split_and!; [done| |done|].
  - pose proof words_NoDup as Hnd. rewrite <- Hperm in Hnd.
    by apply NoDup_app in Hnd as [? _].
  - apply Forall_forall. intros x Hx.
    pose proof words_are_words as Hw. rewrite Forall_forall in Hw.
    apply Hw, Hsub, Hx.
Qed.

(** ** Secret issuance *)

(** What [generate_seed_phrase] returns, and what [split_seed_phrase]
    makes of it. *)
Lemma generate_seed_phrase_spec (w : World) :
  ∃ (ws : list string) (r : Random),
    generate_seed_phrase w
    = (Returns (Py.join " " ws),
       mkWorld (db w) (ADMIN_IDS w) r (utcnow w) (tasks w) (trace w))
    ∧ length ws = 24%nat ∧ NoDup ws ∧ ws ⊆ words
    ∧ Forall (λ x, Py.is_word x = true) ws.
Proof.
  pose proof (sample_words (rng w)) as Hs. cbn zeta in Hs.
  unfold generate_seed_phrase, bind, with_rng, ret.
  destruct (Rng.sample words 24 (rng w)) as [ws r]. by exists ws, r.
Qed.

Lemma split_seed_phrase_spec (ws : list string) :
  Forall (λ x, Py.is_word x = true) ws →
  split_seed_phrase (Py.join " " ws)
  = (Py.join " " (take 12 ws), Py.join " " (drop 12 ws)).
Proof. intros Hw. unfold split_seed_phrase. by rewrite split_join. Qed.

(** C10. Every secret issuance returns 24 distinct words of the fixed
    dictionary, whatever the random generator does; the phrase is split
    by position into two halves of 12 words each, and the words of the
    first half followed by the words of the second half are the 24 words
    issued, so no word occurs twice within or across the halves. *)
Theorem C10_secret_issuance (w : World) :
  ∃ (phrase : string) (w' : World) (ws : list string),
    generate_seed_phrase w = (Returns phrase, w')
    ∧ Py.split phrase = ws
    ∧ length ws = 24%nat ∧ NoDup ws ∧ ws ⊆ words
    ∧ length (Py.split (split_seed_phrase phrase).1) = 12%nat
    ∧ length (Py.split (split_seed_phrase phrase).2) = 12%nat
    ∧ (Py.split (split_seed_phrase phrase).1
       ++ Py.split (split_seed_phrase phrase).2)%list = ws.
Proof.
  destruct (generate_seed_phrase_spec w) as (ws & r & Hgen & Hlen & Hnd & Hsub & Hw).
  eexists _, _, ws. split; [exact Hgen|].
  rewrite split_seed_phrase_spec by done. cbn [fst snd].
  rewrite !split_join by (done || by apply Forall_take || by apply Forall_drop).
  rewrite length_take, length_drop, take_drop, Hlen. by split_and!.
Qed.

(** ** Running handlers *)

(** Unfold the handlers' plumbing, leaving reads of the table, the
    random generator and the caller's data in place. *)
Ltac run :=
  repeat (progress
    (cbv beta iota zeta delta
       [bind ret raise exec emit create_task with_db with_rng get_deal
        sql_update update_deal_status update_deal_balance
        update_deal_seed_phrases safe_get_seed_phrases reread
        ask_seller_btc_address _edit_or_reply _notify
        notify_deposit_success notify_deposit_failed
        has_message has_edit_message_text];
     cbn [db ADMIN_IDS rng utcnow tasks trace deals sqlite_sequence fst snd
          source from_user args user_id username
          task_deal_id task_expected_amount task_btc_address
          fmap option_fmap option_map negb
          Row.to_deal Deal.status Deal.id Deal.amount];
     repeat match goal with
            | H : sqlite_int ?n = _ |- context [sqlite_int ?n] => rewrite H
            end)).

(** The two cases of a handler on a deal id: one that SQLite can hold,
    and one on which the first statement raises. *)
Ltac by_range deal_id :=
  let H := fresh "Hint" in destruct (sqlite_int deal_id) eqn:H; run.

Lemma round2_zero : Py.round2 0%float = 0%float.
Proof. reflexivity. Qed.

Lemma _notify_said (u : Update) (text : string) (w : World) :
  _notify u text w = (Returns tt, said (notice u text) w).
Proof. unfold _notify, notice. by destruct (has_message u). Qed.

(** *** Rows under updates and inserts *)

Lemma row_steps_refl (allowed : Op.t → Prop) (m : gmap Z Row.t) :
  row_steps allowed m m.
Proof. intros id row Hrow. exists row. by split; [|left]. Qed.

Lemma row_steps_weaken (a b : Op.t → Prop) (m m' : gmap Z Row.t) :
  (∀ op, a op → b op) → row_steps a m m' → row_steps b m m'.
Proof.
  intros Hab Hs id row Hrow. destruct (Hs id row Hrow) as (row' & ? & Hc).
  exists row'. split; [done|]. destruct Hc as [?|(op & ? & ?)]; [by left|].
  right. exists op. auto.
Qed.

Lemma row_steps_alter (allowed : Op.t → Prop) (f : Row.t → Row.t) (k : Z)
    (m : gmap Z Row.t) :
  (∀ row, m !! k = Some row →
     f row = row ∨ ∃ op, allowed op ∧ fires op row (f row)) →
  row_steps allowed m (alter f k m).
Proof.
  intros Hf id row Hrow. rewrite lookup_alter. case_decide as Hk.
  - subst k. rewrite Hrow. exists (f row). by split; [|apply Hf].
  - exists row. by split; [|left].
Qed.

Lemma row_steps_insert (allowed : Op.t → Prop) (k : Z) (x : Row.t)
    (m : gmap Z Row.t) :
  m !! k = None → row_steps allowed m (<[k := x]> m).
Proof.
  intros Hk id row Hrow. exists row. split; [|by left].
  rewrite lookup_insert_ne; [done|]. intros ->. congruence.
Qed.

(** *** The flows, one by one *)

Ltac by_caller u := destruct u as [? [|[|]] ?]; run.

Ltac unchanged u :=
  by (by_caller u; (split; [apply row_steps_refl | (done || by left)])).

Ltac use_row Hrow :=
  let Hr := fresh "Hr" in
  intros ? Hr; rewrite Hrow in Hr; injection Hr as <-.

Lemma mark_delivered_steps (u : Update) (deal_id : Z) (w : World) :
  let w' := exec (mark_delivered u deal_id) w in
  row_steps (eq Op.mark_delivered) (deals (db w)) (deals (db w'))
  ∧ tasks w' = tasks w.
Proof.
  unfold mark_delivered. run. by_range deal_id; [|unchanged u].
  destruct (deals (db w) !! deal_id) as [row|] eqn:Hrow; run; [|unchanged u].
  case_bool_decide as Hst; run; [|unchanged u].
  rewrite lookup_alter_eq, Hrow. run.
  by_caller u; (split; [|done]);
    apply row_steps_alter; use_row Hrow; right; by eexists.
Qed.

Lemma release_to_seller_steps (u : Update) (deal_id : Z) (w : World) :
  let w' := exec (release_to_seller u deal_id) w in
  row_steps (eq Op.release) (deals (db w)) (deals (db w'))
  ∧ tasks w' = tasks w.
Proof.
  unfold release_to_seller. run. by_range deal_id; [|unchanged u].
  destruct (deals (db w) !! deal_id) as [row|] eqn:Hrow; run; [|unchanged u].
  case_bool_decide as Hst; run; [|unchanged u].
  rewrite alter_alter_eq, lookup_alter_eq, Hrow. run.
  by_caller u; (split; [|done]);
    apply row_steps_alter; use_row Hrow; right; by eexists.
Qed.

Lemma open_dispute_steps (u : Update) (deal_id : Z) (w : World) :
  let w' := exec (open_dispute u deal_id) w in
  row_steps (eq Op.open_dispute) (deals (db w)) (deals (db w'))
  ∧ tasks w' = tasks w.
Proof.
  unfold open_dispute. run. by_range deal_id; [|unchanged u].
  destruct (deals (db w) !! deal_id) as [row|] eqn:Hrow; run; [|unchanged u].
  case_bool_decide as Hst; run; [|unchanged u].
  rewrite lookup_alter_eq, Hrow. run.
  by_caller u; (split; [|done]);
    apply row_steps_alter; use_row Hrow; right; by eexists.
Qed.

Lemma check_deposit_status_steps (u : Update) (deal_id : Z) (w : World) :
  let w' := exec (check_deposit_status u deal_id) w in
  db w' = db w ∧ tasks w' = tasks w.
Proof.
  unfold check_deposit_status. run. by_range deal_id; [|done].
  destruct (deals (db w) !! deal_id) as [row|]; run; [|by by_caller u].
  case_bool_decide; run; by by_caller u.
Qed.

Lemma request_btc_address_steps (u : Update) (deal_id : Z) (w : World) :
  let w' := exec (request_btc_address u deal_id) w in
  db w' = db w ∧ tasks w' = tasks w.
Proof.
  unfold request_btc_address. run. by_range deal_id; [|done].
  destruct (deals (db w) !! deal_id) as [row|]; run; [|by by_caller u].
  case_bool_decide; run; by by_caller u.
Qed.

Lemma simulate_deposit_logic_new (u : Update) (deal_id : Z) (w : World)
    (row : Row.t) :
  sqlite_int deal_id = true →
  deals (db w) !! deal_id = Some row →
  Row.status row = NEW →
  ∃ ws r es,
    length ws = 24%nat ∧ NoDup ws ∧ ws ⊆ words
    ∧ Forall (λ x, Py.is_word x = true) ws ∧
    simulate_deposit_logic u deal_id w
    = (Returns tt,
       mkWorld
         (mkDatabase
            (alter (λ x, Row.set_status PENDING_DEPOSIT
                           (Row.set_seed_phrases (Py.join " " (take 12 ws))
                              (Py.join " " (drop 12 ws)) x))
               deal_id (deals (db w)))
            (sqlite_sequence (db w)))
         (ADMIN_IDS w) r (utcnow w)
         (tasks w ++ [mkTask deal_id (Row.amount row) btc_address])
         (trace w ++ es)).
Proof.
  intros Hid Hrow Hnew.
  destruct (generate_seed_phrase_spec w) as (ws & r & Hgen & Hlen & Hnd & Hsub & Hw).
  exists ws, r.
  unfold simulate_deposit_logic, bind at 1, get_deal. rewrite Hid, Hrow.
  cbn [fmap option_fmap option_map Row.to_deal Deal.status Deal.amount].
  rewrite Hnew, bool_decide_eq_true_2 by done. cbn [negb].
  unfold bind at 1. rewrite Hgen, split_seed_phrase_spec by done.
  destruct u as [who [|[|]] a]; run;
    rewrite alter_alter_eq, lookup_alter_eq, Hrow;
    cbn [fmap option_fmap option_map]; run;
    rewrite <- ?app_assoc; eexists; split_and!; done.
Qed.

Lemma simulate_deposit_logic_steps (u : Update) (deal_id : Z) (w : World) :
  let w' := exec (simulate_deposit_logic u deal_id) w in
  row_steps (eq Op.initiate_deposit) (deals (db w)) (deals (db w'))
  ∧ task_steps w w'.
Proof.
  cbv zeta. unfold exec.
  destruct (sqlite_int deal_id) eqn:Hid;
    [|unfold simulate_deposit_logic; run; unchanged u].
  destruct (deals (db w) !! deal_id) as [row|] eqn:Hrow.
  - destruct (decide (Row.status row = NEW)) as [Hnew|Hnew].
    + destruct (simulate_deposit_logic_new u deal_id w row Hid Hrow Hnew)
        as (ws & r & es & _ & _ & _ & _ & ->). run. split.
      * apply row_steps_alter; use_row Hrow; right.
        eexists; split; [done|]. split; [done|]. by eexists _, _.
      * right; left. by exists deal_id, row.
    + unfold simulate_deposit_logic. run. rewrite Hrow. run.
      rewrite bool_decide_eq_false_2 by done. unchanged u.
  - unfold simulate_deposit_logic. run. rewrite Hrow. unchanged u.
Qed.

Lemma resolve_cmd_steps (int : string → option Z) (u : Update) (w : World) :
  let w' := exec (resolve_cmd int u) w in
  row_steps (λ op, op = Op.resolve ∧ admin w u) (deals (db w)) (deals (db w'))
  ∧ tasks w' = tasks w.
Proof.
  unfold resolve_cmd, is_admin. run.
  case_bool_decide as Hadm; run; [|by split; [apply row_steps_refl|]].
  destruct (args u) as [|a0 [|a1 rest]]; run;
    try by split; [apply row_steps_refl|].
  destruct (int a0) as [deal_id|]; run; [|by split; [apply row_steps_refl|]].
  by_range deal_id; [|by split; [apply row_steps_refl|]].
  destruct (deals (db w) !! deal_id) as [row|] eqn:Hrow; run;
    [|by split; [apply row_steps_refl|]].
  case_bool_decide as Hst; run; [|by split; [apply row_steps_refl|]].
  case_bool_decide as Hwin; run; [|by split; [apply row_steps_refl|]].
  destruct (String.eqb (Py.lower a1) "buyer"); run;
    rewrite alter_alter_eq, lookup_alter_eq, Hrow; run; (split; [|done]);
    apply row_steps_alter; use_row Hrow; right; by eexists.
Qed.

Lemma cancel_cmd_steps (int : string → option Z) (u : Update) (w : World) :
  let w' := exec (cancel_cmd int u) w in
  row_steps (λ op, op = Op.cancel ∧ admin w u) (deals (db w)) (deals (db w'))
  ∧ tasks w' = tasks w.
Proof.
  unfold cancel_cmd, is_admin. run.
  case_bool_decide as Hadm; run; [|by split; [apply row_steps_refl|]].
  destruct (args u) as [|a rest]; run; [by split; [apply row_steps_refl|]|].
  destruct (int a) as [deal_id|]; run; [|by split; [apply row_steps_refl|]].
  by_range deal_id; [|by split; [apply row_steps_refl|]].
  destruct (deals (db w) !! deal_id) as [row|] eqn:Hrow; run;
    [|by split; [apply row_steps_refl|]].
  rewrite alter_alter_eq, lookup_alter_eq, Hrow. run. split; [|done].
  apply row_steps_alter; use_row Hrow; right; by eexists.
Qed.

Lemma ensure_seed_phrases_exist_steps (deal_id : Z) (w : World) :
  sqlite_int deal_id = true →
  ∃ seeds w',
    ensure_seed_phrases_exist deal_id w = (Returns seeds, w')
    ∧ row_steps (eq Op.ensure_issued) (deals (db w)) (deals (db w'))
    ∧ tasks w' = tasks w ∧ ADMIN_IDS w' = ADMIN_IDS w.
Proof.
  intros Hid. unfold ensure_seed_phrases_exist. run.
  destruct (deals (db w) !! deal_id) as [row|] eqn:Hrow.
  - destruct (negb (truthy (Row.seed_phrase row))
              || negb (truthy (Row.seller_seed_phrase row))) eqn:Hmiss.
    + destruct (generate_seed_phrase_spec w) as (ws & r & -> & _ & _ & _ & Hw).
      rewrite split_seed_phrase_spec by done. run.
      eexists _, _. split; [done|]. split; [|done].
      apply row_steps_alter; use_row Hrow; right.
      eexists; split; [done|]. split; [|by eexists _, _].
      by destruct (truthy (Row.seed_phrase row)),
                  (truthy (Row.seller_seed_phrase row)).
    + eexists _, _. split; [done|]. by split; [apply row_steps_refl|].
  - cbn [truthy negb orb].
    destruct (generate_seed_phrase_spec w) as (ws & r & -> & _ & _ & _ & Hw).
    rewrite split_seed_phrase_spec by done. run.
    eexists _, _. split; [done|]. split; [|done].
    apply row_steps_alter. intros ? Hr. congruence.
Qed.

Lemma show_seed_phrase_steps (int : string → option Z) (u : Update) (w : World) :
  let w' := exec (show_seed_phrase int u) w in
  row_steps (eq Op.ensure_issued) (deals (db w)) (deals (db w'))
  ∧ tasks w' = tasks w.
Proof.
  unfold show_seed_phrase. run.
  destruct (args u) as [|a rest]; run; [by split; [apply row_steps_refl|]|].
  destruct (int a) as [deal_id|]; run; [|by split; [apply row_steps_refl|]].
  by_range deal_id; [|by split; [apply row_steps_refl|]].
  destruct (deals (db w) !! deal_id) as [row|] eqn:Hrow; run;
    [|by split; [apply row_steps_refl|]].
  destruct (negb _); run; [by split; [apply row_steps_refl|]|].
  destruct (ensure_seed_phrases_exist_steps deal_id w)
    as ([s1 s2] & w' & -> & Hsteps & Htasks & _); [done|].
  by destruct (involved _ _ _ _); run.
Qed.

Lemma show_deal_steps (int : string → option Z) (u : Update) (w : World) :
  let w' := exec (show_deal int u) w in
  db w' = db w ∧ tasks w' = tasks w.
Proof.
  unfold show_deal. run.
  destruct (args u) as [|a rest]; run; [done|].
  destruct (int a) as [deal_id|]; run; [|done].
  by_range deal_id; [|done].
  by destruct (deals (db w) !! deal_id) as [row|]; run.
Qed.

(** *** Row ids *)

Lemma max_rowid_ge (m : gmap Z Row.t) (k : Z) (row : Row.t) :
  m !! k = Some row → (k ≤ max_rowid m)%Z.
Proof.
  unfold max_rowid. revert k row.
  apply (map_fold_weak_ind
           (λ acc m, ∀ k row, m !! k = Some row → (k ≤ acc)%Z)).
  - intros k row. by rewrite lookup_empty.
  - intros i x m' r Hi IH k row. rewrite lookup_insert.
    case_decide; [intros; subst; lia|]. intros Hk%IH. lia.
Qed.

Lemma next_rowid_fresh (d : Database) : deals d !! next_rowid d = None.
Proof.
  destruct (deals d !! next_rowid d) as [row|] eqn:Hrow; [|done].
  apply max_rowid_ge in Hrow. unfold next_rowid in Hrow. lia.
Qed.

Lemma insert_deal_full (b : Z) (bu : option string) (s : Z)
    (su : option string) (amount : float) (currency description : string)
    (w : World) :
  sqlite_int (next_rowid (db w)) = false →
  insert_deal b bu s su amount currency description w
  = (Raises OperationalError, w).
Proof. intros Hfull. unfold insert_deal, sql_insert, bind. by rewrite Hfull. Qed.

Lemma insert_deal_steps (b : Z) (bu : option string) (s : Z)
    (su : option string) (amount : float) (currency description : string)
    (w : World) :
  sqlite_int (next_rowid (db w)) = true →
  ∃ w',
    insert_deal b bu s su amount currency description w
    = (Returns (next_rowid (db w)), w')
    ∧ row_steps (λ _, False) (deals (db w)) (deals (db w'))
    ∧ tasks w' = tasks w
    ∧ is_Some (deals (db w') !! next_rowid (db w)).
Proof.
  intros Hid.
  unfold insert_deal, sql_insert. unfold bind at 1. unfold bind at 1.
  rewrite Hid.
  match goal with |- context [generate_seed_phrase ?w1] =>
    destruct (generate_seed_phrase_spec w1) as (ws & r & -> & _ & _ & _ & Hw)
  end.
  rewrite split_seed_phrase_spec by done. run.
  eexists. split; [done|]. cbn [db deals tasks]. split; [|split; [done|]].
  - intros id row Hrow. exists row. split; [|by left].
    assert (next_rowid (db w) ≠ id)
      by (intros <-; by rewrite next_rowid_fresh in Hrow).
    by rewrite lookup_alter_ne, lookup_insert_ne.
  - rewrite lookup_alter_eq, lookup_insert_eq. by eexists.
Qed.

Lemma wake_task_steps (n : nat) (w : World) :
  let w' := exec (wake_task n) w in
  row_steps (eq Op.verify_deposit) (deals (db w)) (deals (db w'))
  ∧ task_steps w w'.
Proof.
  unfold wake_task. run.
  destruct (tasks w !! n) as [[deal_id amount addr]|]; run;
    [|by split; [apply row_steps_refl|left]].
  unfold schedule_deposit_verification, verify_btc_deposit. run.
  destruct (Rng.random (rng w)) as [x r]. run.
  by_range deal_id;
    [|destruct (PrimFloat.ltb x 0.9); run;
      by split; [apply row_steps_refl|right; right; exists n]].
  destruct (deals (db w) !! deal_id) as [row|] eqn:Hrow;
    destruct (PrimFloat.ltb x 0.9); run;
    rewrite ?alter_alter_eq, ?lookup_alter_eq, ?Hrow; run;
    (split; [|right; right; by exists n]);
    try apply row_steps_refl; apply row_steps_alter.
  - use_row Hrow; right. eexists; split; [done|]. by eexists.
  - intros ? Hr. congruence.
Qed.

(** *** Every request *)

Ltac weaken_from H :=
  destruct H as [Hrows Htasks]; split;
  [ eapply row_steps_weaken; [|exact Hrows]; cbn; intros ? <-; done
  | first [exact Htasks | by left] ].

(** Whatever the request, every row stays in the table, unchanged or
    taken one step by an operation the request can set off; and the
    sleeping tasks change as [task_steps] says. *)
Lemma handle_steps (int : string → option Z) (r : Request) (w : World) :
  let w' := exec (handle int r) w in
  row_steps (triggers w r) (deals (db w)) (deals (db w')) ∧ task_steps w w'.
Proof.
  destruct r as [u b bu s su amount currency description
                |u|u|u|u|u|u|u|u data|n]; cbv zeta; cbn [handle].
  - destruct (sqlite_int (next_rowid (db w))) eqn:Hid.
    + destruct (insert_deal_steps b bu s su amount currency description w Hid)
        as (w1 & Hins & Hrows & Htasks & [row1 Hnew]).
      run. rewrite Hins. run. rewrite Hnew. run. split; [|by left].
      eapply row_steps_weaken; [|exact Hrows]. done.
    + run. rewrite insert_deal_full by done.
      by split; [apply row_steps_refl|left].
  - destruct (show_deal_steps int u w) as [-> Htasks].
    split; [apply row_steps_refl | by left].
  - unfold simulate_deposit_cmd.
    destruct (args u) as [|a rest]; [run; by split; [apply row_steps_refl|left]|].
    destruct (int a) as [deal_id|]; [|run; by split; [apply row_steps_refl|left]].
    pose proof (simulate_deposit_logic_steps u deal_id w) as H. weaken_from H.
  - unfold _release_cmd_alias.
    destruct (args u) as [|a rest]; [run; by split; [apply row_steps_refl|left]|].
    destruct (int a) as [deal_id|]; [|run; by split; [apply row_steps_refl|left]].
    pose proof (release_to_seller_steps u deal_id w) as H. weaken_from H.
  - unfold _dispute_cmd_alias.
    destruct (args u) as [|a rest]; [run; by split; [apply row_steps_refl|left]|].
    destruct (int a) as [deal_id|]; [|run; by split; [apply row_steps_refl|left]].
    pose proof (open_dispute_steps u deal_id w) as H. weaken_from H.
  - pose proof (show_seed_phrase_steps int u w) as H. weaken_from H.
  - destruct (resolve_cmd_steps int u w) as [Hrows Htasks].
    split; [|by left]. eapply row_steps_weaken; [|exact Hrows].
    by intros ? [-> ?].
  - destruct (cancel_cmd_steps int u w) as [Hrows Htasks].
    split; [|by left]. eapply row_steps_weaken; [|exact Hrows].
    by intros ? [-> ?].
  - unfold on_button, exec, bind at 1, emit.
    set (w1 := mkWorld _ _ _ _ _ (trace w ++ [answer_empty])).
    change (deals (db w)) with (deals (db w1)).
    assert (Hts : ∀ w', task_steps w1 w' → task_steps w w') by done.
    destruct (Py.split_colon data) as [[action sid]|];
      [|by split; [apply row_steps_refl|left]].
    destruct (int sid) as [deal_id|]; [|by split; [apply row_steps_refl|left]].
    repeat match goal with
           | |- context [if String.eqb ?a ?b then _ else _] =>
               destruct (String.eqb a b)
           end.
    + pose proof (simulate_deposit_logic_steps u deal_id w1) as H.
      weaken_from H; apply Hts; done.
    + destruct (check_deposit_status_steps u deal_id w1) as [Hdb Htasks].
      unfold exec in Hdb, Htasks. rewrite Hdb.
      split; [apply row_steps_refl | by left].
    + destruct (request_btc_address_steps u deal_id w1) as [Hdb Htasks].
      unfold exec in Hdb, Htasks. rewrite Hdb.
      split; [apply row_steps_refl | by left].
    + pose proof (mark_delivered_steps u deal_id w1) as H. weaken_from H.
    + pose proof (release_to_seller_steps u deal_id w1) as H. weaken_from H.
    + pose proof (open_dispute_steps u deal_id w1) as H. weaken_from H.
    + subst w1. run. by_range deal_id; [|by split; [apply row_steps_refl|left]].
      destruct (deals (db w) !! deal_id); run;
        by split; [apply row_steps_refl|left].
    + by split; [apply row_steps_refl|left].
  - pose proof (wake_task_steps n w) as H. weaken_from H.
Qed.

(** ** Rejections *)

Lemma simulate_deposit_logic_rejected (u : Update) (deal_id : Z) (w : World)
    (row : Row.t) :
  sqlite_int deal_id = true →
  deals (db w) !! deal_id = Some row →
  Row.status row ≠ NEW →
  simulate_deposit_logic u deal_id w
  = (Returns tt, said (notice u "Deposit allowed only when status is NEW.") w).
Proof.
  intros Hid Hrow Hst. unfold simulate_deposit_logic, bind, get_deal.
  rewrite Hid, Hrow. run. rewrite bool_decide_eq_false_2 by done.
  by by_caller u.
Qed.

Lemma mark_delivered_rejected (u : Update) (deal_id : Z) (w : World)
    (row : Row.t) :
  sqlite_int deal_id = true →
  deals (db w) !! deal_id = Some row →
  Row.status row ∉ [FUNDED; DISPUTED] →
  mark_delivered u deal_id w
  = (Returns tt,
     said (notice u "You can mark delivered only when FUNDED or DISPUTED.") w).
Proof.
  intros Hid Hrow Hst. unfold mark_delivered, bind, get_deal.
  rewrite Hid, Hrow. run. rewrite bool_decide_eq_false_2 by done.
  by by_caller u.
Qed.

Lemma release_to_seller_rejected (u : Update) (deal_id : Z) (w : World)
    (row : Row.t) :
  sqlite_int deal_id = true →
  deals (db w) !! deal_id = Some row →
  Row.status row ≠ DELIVERED →
  release_to_seller u deal_id w
  = (Returns tt, said (notice u "Release allowed only after delivery.") w).
Proof.
  intros Hid Hrow Hst. unfold release_to_seller, bind, get_deal.
  rewrite Hid, Hrow. run. rewrite bool_decide_eq_false_2 by done.
  by by_caller u.
Qed.

Lemma open_dispute_rejected (u : Update) (deal_id : Z) (w : World)
    (row : Row.t) :
  sqlite_int deal_id = true →
  deals (db w) !! deal_id = Some row →
  Row.status row ∉ [FUNDED; DELIVERED] →
  open_dispute u deal_id w
  = (Returns tt,
     said (notice u "Dispute allowed only when FUNDED or DELIVERED.") w).
Proof.
  intros Hid Hrow Hst. unfold open_dispute, bind, get_deal.
  rewrite Hid, Hrow. run. rewrite bool_decide_eq_false_2 by done.
  by by_caller u.
Qed.

Lemma resolve_cmd_rejected (int : string → option Z) (u : Update)
    (a0 a1 : string) (rest : list string) (deal_id : Z) (w : World)
    (row : Row.t) :
  admin w u → args u = a0 :: a1 :: rest → int a0 = Some deal_id →
  sqlite_int deal_id = true →
  deals (db w) !! deal_id = Some row →
  Row.status row ∉ [DISPUTED; FUNDED; DELIVERED] →
  resolve_cmd int u w
  = (Returns tt,
     said (reply_text "Can resolve only a disputed/funded/delivered deal.") w).
Proof.
  intros Hadm Hargs Hint Hid Hrow Hst. unfold resolve_cmd, is_admin. run.
  rewrite bool_decide_eq_true_2 by done. run. rewrite Hargs, Hint. run.
  rewrite Hrow. run. by rewrite bool_decide_eq_false_2 by done.
Qed.

Lemma terminal_not_in (s : DealStatus) (l : list DealStatus) :
  terminal s = true → Forall (λ x, terminal x = false) l → s ∉ l.
Proof.
  intros Hs Hl Hin. rewrite Forall_forall in Hl. apply Hl in Hin. congruence.
Qed.

(** ** C8, C9, C3 *)

(** C8. For every existing deal, [initiate_deposit] goes through if and
    only if the deal is NEW; in any other status it is turned down with
    the message that deposits need status NEW, and nothing but that
    message changes: the deal keeps its status, balance and every other
    field, and no verification is scheduled. (The id of a row of the
    table is an INTEGER of SQLite.) *)
Theorem C8_initiate_deposit_iff_new (u : Update) (deal_id : Z) (w : World)
    (row : Row.t) :
  sqlite_int deal_id = true →
  deals (db w) !! deal_id = Some row →
  let w' := exec (simulate_deposit_logic u deal_id) w in
  (Row.status row = NEW ↔ deposit_initiated deal_id row w w')
  ∧ (Row.status row ≠ NEW →
       simulate_deposit_logic u deal_id w
       = (Returns tt,
          said (notice u "Deposit allowed only when status is NEW.") w)
       ∧ db w' = db w ∧ tasks w' = tasks w).
Proof.
  intros Hid Hrow w'.
  assert (Hrej : Row.status row ≠ NEW →
            simulate_deposit_logic u deal_id w
            = (Returns tt,
               said (notice u "Deposit allowed only when status is NEW.") w)
            ∧ db w' = db w ∧ tasks w' = tasks w).
  { intros Hst. subst w'. unfold exec.
    by rewrite (simulate_deposit_logic_rejected u deal_id w row). }
  split; [|exact Hrej]. split.
  - intros Hnew. subst w'. unfold exec, deposit_initiated.
    destruct (simulate_deposit_logic_new u deal_id w row Hid Hrow Hnew)
      as (ws & r & es & _ & _ & _ & _ & ->). run. split; [|done].
    rewrite lookup_alter_eq, Hrow. by eexists _, _.
  - intros [_ Htasks]. destruct (decide (Row.status row = NEW)) as [|Hst]; [done|].
    destruct (Hrej Hst) as (_ & _ & Hsame). rewrite Hsame in Htasks.
    apply (f_equal length) in Htasks. rewrite length_app in Htasks.
    cbn in Htasks. lia.
Qed.

Lemma C8_initiate_deposit_iff_new_witness :
  deals (db Example.created) !! 1
  = Some (Row.mk 11 (Some "alice") 22 (Some "bob") 100%float "USD"
            "Laptop sale" NEW 0%float
            (Some "abandon advance afford add aisle afraid absorb adult again alert access alpha")
            (Some "alley absurd alcohol acid already abstract alter actual action alarm airport all")
            Example.now)
  ∧ deposit_initiated 1
      (Row.mk 11 (Some "alice") 22 (Some "bob") 100%float "USD"
            "Laptop sale" NEW 0%float
            (Some "abandon advance afford add aisle afraid absorb adult again alert access alpha")
            (Some "alley absurd alcohol acid already abstract alter actual action alarm airport all")
            Example.now)
      Example.created
      (exec (simulate_deposit_logic (Example.cmd Example.alice ["1"]) 1)
         Example.created).
Proof.
  assert (H : deals (db Example.created) !! 1
    = Some (Row.mk 11 (Some "alice") 22 (Some "bob") 100%float "USD"
            "Laptop sale" NEW 0%float
            (Some "abandon advance afford add aisle afraid absorb adult again alert access alpha")
            (Some "alley absurd alcohol acid already abstract alter actual action alarm airport all")
            Example.now)) by (vm_compute; reflexivity).
  split; [exact H|].
  exact (proj1 (proj1 (C8_initiate_deposit_iff_new
                         (Example.cmd Example.alice ["1"]) 1
                         Example.created _ eq_refl H)) eq_refl).
Defined.

(** C9. For a caller outside the administrator set, [resolve] and
    [cancel] answer "Admin only." and do nothing else: the database,
    the sleeping tasks and the random generator are as before, so the
    deal is entirely unchanged. *)
Theorem C9_admin_only (int : string → option Z) (u : Update) (w : World) :
  user_id (from_user u) ∉ ADMIN_IDS w →
  resolve_cmd int u w = (Returns tt, said (reply_text "Admin only.") w)
  ∧ cancel_cmd int u w = (Returns tt, said (reply_text "Admin only.") w)
  ∧ db (said (reply_text "Admin only.") w) = db w.
Proof.
  intros Hadm. unfold resolve_cmd, cancel_cmd, is_admin. run.
  by rewrite bool_decide_eq_false_2 by done.
Qed.

Lemma C9_admin_only_witness :
  Row.status <$> deals (db Example.created) !! 1 = Some NEW
  ∧ cancel_cmd int_decimal (Example.cmd Example.mallory ["1"]) Example.created
    = (Returns tt, said (reply_text "Admin only.") Example.created)
  ∧ Row.status
    <$> deals (db (exec (cancel_cmd int_decimal
                           (Example.cmd Example.mallory ["1"]))
                     Example.created)) !! 1
    = Some NEW.
Proof.
  assert (Hnot : user_id (from_user (Example.cmd Example.mallory ["1"]))
                 ∉ ADMIN_IDS Example.created)
    by (vm_compute; set_solver).
  pose proof (C9_admin_only int_decimal (Example.cmd Example.mallory ["1"])
                Example.created Hnot) as (_ & Hcancel & _).
  split; [vm_compute; reflexivity|]. split; [exact Hcancel|].
  unfold exec. rewrite Hcancel. vm_compute. reflexivity.
Defined.

(** C3. The four flows open to everybody — initiate_deposit,
    mark_delivered, release and open_dispute — never look at the
    caller: made by any other identity, the same request returns the
    same result and leaves the same world. In particular whoever asks
    for the release of a DELIVERED deal gets it: the deal becomes
    RELEASED with balance 0, buyer, seller or neither. (The id of a row
    of the table is an INTEGER of SQLite.) *)
Theorem C3_caller_not_checked (who : User) (u : Update) (deal_id : Z)
    (w : World) :
  simulate_deposit_logic (acting_as who u) deal_id w
  = simulate_deposit_logic u deal_id w
  ∧ mark_delivered (acting_as who u) deal_id w = mark_delivered u deal_id w
  ∧ release_to_seller (acting_as who u) deal_id w
    = release_to_seller u deal_id w
  ∧ open_dispute (acting_as who u) deal_id w = open_dispute u deal_id w
  ∧ ∀ row,
      sqlite_int deal_id = true →
      deals (db w) !! deal_id = Some row →
      Row.status row = DELIVERED →
      deals (db (exec (release_to_seller (acting_as who u) deal_id) w))
        !! deal_id
      = Some (Row.set_escrow_balance 0%float (Row.set_status RELEASED row)).
Proof.
  split_and!; try reflexivity.
  intros row Hid Hrow Hst. unfold release_to_seller. run. rewrite Hrow. run.
  rewrite bool_decide_eq_true_2 by done. run.
  rewrite alter_alter_eq, lookup_alter_eq, Hrow. run.
  unfold acting_as. cbn [source].
  destruct (source u) as [|[|]]; run; by rewrite lookup_alter_eq, Hrow.
Qed.

(** Mallory, party to no deal, releases the deal of alice and bob. *)
Example mallory_releases :
  Row.status <$> deals (db Example.delivered) !! 1 = Some DELIVERED
  ∧ Row.status
    <$> deals (db (exec (release_to_seller
                           (Example.cmd Example.mallory ["1"]) 1)
                     Example.delivered)) !! 1
    = Some RELEASED.
Proof. vm_compute. by split. Qed.

(** ** C5: the store on an id it does not hold *)

Lemma alter_missing (f : Row.t → Row.t) (k : Z) (m : gmap Z Row.t) :
  m !! k = None → alter f k m = m.
Proof.
  intros Hk. apply map_eq. intros i. rewrite lookup_alter.
  case_decide; [subst; by rewrite Hk|done].
Qed.

Lemma sql_update_missing (f : Row.t → Row.t) (deal_id : Z) (w : World) :
  sqlite_int deal_id = true →
  deals (db w) !! deal_id = None → sql_update f deal_id w = (Returns tt, w).
Proof.
  intros Hid Hk. unfold sql_update, with_db. rewrite Hid, alter_missing by done.
  by destruct w as [[] ? ? ? ? ?].
Qed.

Lemma sql_update_overflow (f : Row.t → Row.t) (deal_id : Z) (w : World) :
  sqlite_int deal_id = false →
  sql_update f deal_id w = (Raises OverflowError, w).
Proof. intros Hid. unfold sql_update. by rewrite Hid. Qed.

(** C5, as the code has it. On an id the table does not hold, the three
    mutators return normally and leave the world as it was: UPDATE
    matches no row and nothing is raised; only [get_deal] reports the
    absence, by returning [None]. "Deal not found." is said by the flows,
    which read the deal before they write. That is so for every id that
    is an INTEGER of SQLite. A Python [int] outside the signed 64-bit
    range, which is the id of no row, does not reach the table: on it
    [get_deal], the three mutators and the flows raise [OverflowError],
    and the world is again as it was. *)
Theorem C5_missing_id_is_silent (deal_id : Z) (w : World) :
  deals (db w) !! deal_id = None →
  (sqlite_int deal_id = true →
     (∀ status, update_deal_status deal_id status w = (Returns tt, w))
     ∧ (∀ new_balance,
          update_deal_balance deal_id new_balance w = (Returns tt, w))
     ∧ (∀ half1 half2,
          update_deal_seed_phrases deal_id half1 half2 w = (Returns tt, w))
     ∧ get_deal deal_id w = (Returns None, w)
     ∧ (∀ u, simulate_deposit_logic u deal_id w
             = (Returns tt, said (notice u "Deal not found.") w))
     ∧ (∀ u, mark_delivered u deal_id w
             = (Returns tt, said (notice u "Deal not found.") w))
     ∧ (∀ u, release_to_seller u deal_id w
             = (Returns tt, said (notice u "Deal not found.") w))
     ∧ (∀ u, open_dispute u deal_id w
             = (Returns tt, said (notice u "Deal not found.") w)))
  ∧ (sqlite_int deal_id = false →
     (∀ status,
        update_deal_status deal_id status w = (Raises OverflowError, w))
     ∧ (∀ new_balance,
          update_deal_balance deal_id new_balance w
          = (Raises OverflowError, w))
     ∧ (∀ half1 half2,
          update_deal_seed_phrases deal_id half1 half2 w
          = (Raises OverflowError, w))
     ∧ get_deal deal_id w = (Raises OverflowError, w)
     ∧ (∀ u, simulate_deposit_logic u deal_id w = (Raises OverflowError, w))
     ∧ (∀ u, mark_delivered u deal_id w = (Raises OverflowError, w))
     ∧ (∀ u, release_to_seller u deal_id w = (Raises OverflowError, w))
     ∧ (∀ u, open_dispute u deal_id w = (Raises OverflowError, w))).
Proof.
  intros Hk. split; intros Hid.
  - split_and!; intros; try (by apply sql_update_missing).
    + unfold get_deal. by rewrite Hid, Hk.
    + unfold simulate_deposit_logic, bind, get_deal. rewrite Hid, Hk.
      by by_caller u.
    + unfold mark_delivered, bind, get_deal. rewrite Hid, Hk. by by_caller u.
    + unfold release_to_seller, bind, get_deal. rewrite Hid, Hk.
      by by_caller u.
    + unfold open_dispute, bind, get_deal. rewrite Hid, Hk. by by_caller u.
  - split_and!; intros; try (by apply sql_update_overflow).
    + unfold get_deal. by rewrite Hid.
    + unfold simulate_deposit_logic, bind, get_deal. by rewrite Hid.
    + unfold mark_delivered, bind, get_deal. by rewrite Hid.
    + unfold release_to_seller, bind, get_deal. by rewrite Hid.
    + unfold open_dispute, bind, get_deal. by rewrite Hid.
Qed.

Lemma C5_missing_id_is_silent_witness :
  deals (db Example.created) !! 7 = None
  ∧ update_deal_status 7 FUNDED Example.created = (Returns tt, Example.created).
Proof.
  assert (H : deals (db Example.created) !! 7 = None)
    by (vm_compute; reflexivity).
  split; [exact H|].
  exact (proj1 (proj1 (C5_missing_id_is_silent 7 Example.created H) eq_refl)
           FUNDED).
Defined.

(** The first integer past the range, 2^63: the command
    [/deal 9223372036854775808] ends in [OverflowError], and so do the
    store functions on that id. *)
Example deal_id_too_large :
  int_decimal "9223372036854775808" = Some (2 ^ 63)%Z
  ∧ show_deal int_decimal (Example.cmd Example.alice ["9223372036854775808"])
      Example.created
    = (Raises OverflowError, Example.created)
  ∧ get_deal (2 ^ 63) Example.created = (Raises OverflowError, Example.created)
  ∧ update_deal_status (2 ^ 63) FUNDED Example.created
    = (Raises OverflowError, Example.created)
  ∧ get_deal (2 ^ 63 - 1) Example.created = (Returns None, Example.created).
Proof. vm_compute. by split_and!. Qed.

(** C5 as stated fails: on the id 7, which the table does not hold, each
    mutator returns [()] and changes nothing, where the claim wants it to
    fail with NotFound. *)
Lemma C5_counterexample :
  deals (db Example.created) !! 7 = None
  ∧ update_deal_status 7 FUNDED Example.created = (Returns tt, Example.created)
  ∧ update_deal_balance 7 100%float Example.created
    = (Returns tt, Example.created)
  ∧ update_deal_seed_phrases 7 "abandon" "ability" Example.created
    = (Returns tt, Example.created).
Proof. vm_compute. by split_and!. Qed.

(** ** The deferred verification (C2, C1) *)

Lemma verify_btc_deposit_spec (deal_id : Z) (expected_amount : float)
    (btc_address : string) (w : World) :
  let w' := exec (verify_btc_deposit deal_id expected_amount btc_address) w in
  db w'
  = (if deposit_found w && sqlite_int deal_id
     then mkDatabase
            (alter (Row.set_escrow_balance (Py.round2 expected_amount)
                    ∘ Row.set_status FUNDED) deal_id (deals (db w)))
            (sqlite_sequence (db w))
     else db w)
  ∧ tasks w' = tasks w.
Proof.
  unfold verify_btc_deposit, deposit_found. run.
  destruct (Rng.random (rng w)) as [x r]. run.
  destruct (PrimFloat.ltb x 0.9); run; [|done].
  by_range deal_id; [|done]. by rewrite alter_alter_eq.
Qed.

Lemma wake_task_spec (n : nat) (w : World) (t : Task) :
  tasks w !! n = Some t →
  let w' := exec (wake_task n) w in
  db w'
  = (if deposit_found w && sqlite_int (task_deal_id t)
     then mkDatabase
            (alter (Row.set_escrow_balance (Py.round2 (task_expected_amount t))
                    ∘ Row.set_status FUNDED) (task_deal_id t) (deals (db w)))
            (sqlite_sequence (db w))
     else db w)
  ∧ tasks w' = delete n (tasks w).
Proof.
  intros Ht. unfold wake_task, deposit_found. run. rewrite Ht.
  destruct t as [deal_id amount addr]. run.
  unfold schedule_deposit_verification, verify_btc_deposit. run.
  destruct (Rng.random (rng w)) as [x r]. run.
  destruct (PrimFloat.ltb x 0.9); run; (by_range deal_id; [|done]).
  - rewrite alter_alter_eq.
    by destruct (_ <$> alter _ _ _ !! _); run.
  - by destruct (_ <$> _ !! _); run.
Qed.

Lemma database_eta (d : Database) :
  mkDatabase (deals d) (sqlite_sequence d) = d.
Proof. by destruct d. Qed.

(** C2, as the code has it. The task that wakes up does not read the
    deal. If the deal is gone, or if its check finds no deposit, the
    database is left as it was. If the deal is there and the check finds
    the deposit, the deal is written FUNDED with the rounded expected
    amount as balance, whatever status it had; no other row changes.
    (The id of a row of the table is an INTEGER of SQLite.) *)
Theorem C2_verification_does_not_check_status (n : nat) (w : World) (t : Task) :
  tasks w !! n = Some t →
  let w' := exec (wake_task n) w in
  (deals (db w) !! task_deal_id t = None → db w' = db w)
  ∧ (deposit_found w = false → db w' = db w)
  ∧ (∀ row,
       sqlite_int (task_deal_id t) = true →
       deals (db w) !! task_deal_id t = Some row →
       deposit_found w = true →
       deals (db w') !! task_deal_id t
       = Some (Row.set_escrow_balance (Py.round2 (task_expected_amount t))
                 (Row.set_status FUNDED row))
       ∧ ∀ id, id ≠ task_deal_id t →
               deals (db w') !! id = deals (db w) !! id).
Proof.
  intros Ht w'. destruct (wake_task_spec n w t Ht) as [Hdb _].
  fold w' in Hdb. split_and!.
  - intros Hnone. rewrite Hdb.
    destruct (deposit_found w && sqlite_int (task_deal_id t)); [|done].
    rewrite alter_missing by done. apply database_eta.
  - intros Hno. by rewrite Hdb, Hno.
  - intros row Hrange Hrow Hyes. rewrite Hdb, Hyes, Hrange.
    cbn [andb deals]. split.
    + by rewrite lookup_alter_eq, Hrow.
    + intros id Hid. by rewrite lookup_alter_ne.
Qed.

Lemma C2_verification_does_not_check_status_witness :
  tasks Example.canceled !! 0%nat = Some (mkTask 1 100%float btc_address)
  ∧ (deposit_found Example.canceled = false →
     db (exec (wake_task 0) Example.canceled) = db Example.canceled).
Proof.
  assert (H : tasks Example.canceled !! 0%nat
              = Some (mkTask 1 100%float btc_address))
    by (vm_compute; reflexivity).
  split; [exact H|].
  exact (proj1 (proj2 (C2_verification_does_not_check_status
                         0 Example.canceled _ H))).
Defined.

(** C2 as stated fails: the deal was canceled while its verification
    slept; the task wakes up, finds the deposit, and the canceled deal
    is FUNDED with balance 100. *)
Lemma C2_counterexample :
  Row.status <$> deals (db Example.canceled) !! 1 = Some CANCELED
  ∧ Row.escrow_balance <$> deals (db Example.canceled) !! 1 = Some 0%float
  ∧ tasks Example.canceled = [mkTask 1 100%float btc_address]
  ∧ Row.status <$> deals (db (exec (wake_task 0) Example.canceled)) !! 1
    = Some FUNDED
  ∧ Row.escrow_balance
    <$> deals (db (exec (wake_task 0) Example.canceled)) !! 1
    = Some 100%float.
Proof. vm_compute. by split_and!. Qed.

(** *** Terminal deals *)

Lemma cancel_cmd_applied (int : string → option Z) (u : Update) (a : string)
    (rest : list string) (deal_id : Z) (w : World) (row : Row.t) :
  admin w u → args u = a :: rest → int a = Some deal_id →
  sqlite_int deal_id = true →
  deals (db w) !! deal_id = Some row →
  cancel_cmd int u w
  = (Returns tt,
     mkWorld
       (mkDatabase
          (<[deal_id := Row.set_escrow_balance 0%float
                          (Row.set_status CANCELED row)]> (deals (db w)))
          (sqlite_sequence (db w)))
       (ADMIN_IDS w) (rng w) (utcnow w) (tasks w)
       (trace w
        ++ [reply_html
              (deal_summary_md
                 (Row.to_deal deal_id
                    (Row.set_escrow_balance 0%float
                       (Row.set_status CANCELED row))))])).
Proof.
  intros Hadm Hargs Hint Hid Hrow. unfold cancel_cmd, is_admin. run.
  rewrite bool_decide_eq_true_2 by done. run. rewrite Hargs, Hint. run.
  rewrite Hrow. run. rewrite alter_alter_eq, lookup_alter_eq, Hrow. run.
  do 3 f_equal. apply map_eq. intros i.
  rewrite lookup_alter, lookup_insert. case_decide; [|done].
  subst. by rewrite Hrow.
Qed.

(** What an operation can do to a terminal row: only [cancel] and the
    verification change its status or balance. *)
Lemma fires_on_terminal (op : Op.t) (row row' : Row.t) :
  terminal (Row.status row) = true →
  fires op row row' →
  (Row.status row' = Row.status row
   ∧ Row.escrow_balance row' = Row.escrow_balance row)
  ∨ op = Op.cancel ∨ op = Op.verify_deposit.
Proof.
  intros Hterm Hf. destruct op; cbn in Hf; try (by right; auto).
  - destruct Hf as [Hst _]. rewrite Hst in Hterm. discriminate.
  - destruct Hf as [Hst _]. exfalso. revert Hst.
    apply terminal_not_in; [done|]. by repeat constructor.
  - destruct Hf as [Hst _]. rewrite Hst in Hterm. discriminate.
  - destruct Hf as [Hst _]. exfalso. revert Hst.
    apply terminal_not_in; [done|]. by repeat constructor.
  - destruct Hf as [Hst _]. exfalso. revert Hst.
    apply terminal_not_in; [done|]. by repeat constructor.
  - destruct Hf as (_ & ? & ? & ->). by left.
Qed.

(** C1, as the code has it. On a deal in a terminal status the guarded
    operations — initiate_deposit, mark_delivered, release, open_dispute
    and resolve — are turned down and change nothing, and no request but
    an admin's cancel and a waking verification changes its status or
    balance. Those two do not look at the status: cancel by an admin is
    applied (status CANCELED, balance 0), and a verification that finds
    the deposit writes FUNDED and the rounded expected amount; one that
    finds none leaves the deal as it is. (The id of a row of the table
    is an INTEGER of SQLite.) *)
Theorem C1_terminal_deals (int : string → option Z) (w : World) (deal_id : Z)
    (row : Row.t) :
  sqlite_int deal_id = true →
  deals (db w) !! deal_id = Some row →
  terminal (Row.status row) = true →
  (∀ u, simulate_deposit_logic u deal_id w
        = (Returns tt,
           said (notice u "Deposit allowed only when status is NEW.") w))
  ∧ (∀ u, mark_delivered u deal_id w
          = (Returns tt,
             said (notice u
                     "You can mark delivered only when FUNDED or DISPUTED.") w))
  ∧ (∀ u, release_to_seller u deal_id w
          = (Returns tt,
             said (notice u "Release allowed only after delivery.") w))
  ∧ (∀ u, open_dispute u deal_id w
          = (Returns tt,
             said (notice u
                     "Dispute allowed only when FUNDED or DELIVERED.") w))
  ∧ (∀ u a0 a1 rest,
       admin w u → args u = a0 :: a1 :: rest → int a0 = Some deal_id →
       resolve_cmd int u w
       = (Returns tt,
          said (reply_text
                  "Can resolve only a disputed/funded/delivered deal.") w))
  ∧ (∀ r, ∃ row',
       deals (db (exec (handle int r) w)) !! deal_id = Some row'
       ∧ ((Row.status row' = Row.status row
           ∧ Row.escrow_balance row' = Row.escrow_balance row)
          ∨ (triggers w r Op.cancel ∧ fires Op.cancel row row')
          ∨ (triggers w r Op.verify_deposit
             ∧ fires Op.verify_deposit row row')))
  ∧ (∀ u a rest,
       admin w u → args u = a :: rest → int a = Some deal_id →
       deals (db (exec (cancel_cmd int u) w)) !! deal_id
       = Some (Row.set_escrow_balance 0%float (Row.set_status CANCELED row)))
  ∧ (∀ expected_amount address,
       deals (db (exec (verify_btc_deposit deal_id expected_amount address) w))
         !! deal_id
       = Some (if deposit_found w
               then Row.set_escrow_balance (Py.round2 expected_amount)
                      (Row.set_status FUNDED row)
               else row)).
Proof.
  intros Hid Hrow Hterm. split_and!.
  - intros u. apply (simulate_deposit_logic_rejected u deal_id w row Hid Hrow).
    intros Hst. rewrite Hst in Hterm. discriminate.
  - intros u. apply (mark_delivered_rejected u deal_id w row Hid Hrow).
    apply terminal_not_in; [done|]. by repeat constructor.
  - intros u. apply (release_to_seller_rejected u deal_id w row Hid Hrow).
    intros Hst. rewrite Hst in Hterm. discriminate.
  - intros u. apply (open_dispute_rejected u deal_id w row Hid Hrow).
    apply terminal_not_in; [done|]. by repeat constructor.
  - intros u a0 a1 rest Hadm Hargs Hint.
    apply (resolve_cmd_rejected int u a0 a1 rest deal_id w row); try done.
    apply terminal_not_in; [done|]. by repeat constructor.
  - intros r. destruct (handle_steps int r w) as [Hrows _].
    destruct (Hrows deal_id row Hrow) as (row' & Hrow' & Hstep).
    exists row'. split; [done|].
    destruct Hstep as [->|(op & Htr & Hf)]; [by left|].
    destruct (fires_on_terminal op row row' Hterm Hf) as [?|[->| ->]]; auto.
  - intros u a rest Hadm Hargs Hint. unfold exec.
    rewrite (cancel_cmd_applied int u a rest deal_id w row) by done.
    cbn [snd db deals]. apply lookup_insert_eq.
  - intros expected_amount address.
    destruct (verify_btc_deposit_spec deal_id expected_amount address w)
      as [-> _]. rewrite Hid.
    destruct (deposit_found w); [|done]. cbn [andb deals].
    by rewrite lookup_alter_eq, Hrow.
Qed.

Lemma C1_terminal_deals_witness :
  Row.status <$> deals (db Example.released) !! 1 = Some RELEASED
  ∧ open_dispute (Example.cmd Example.alice ["1"]) 1 Example.released
    = (Returns tt,
       said (reply_text "Dispute allowed only when FUNDED or DELIVERED.")
         Example.released).
Proof.
  assert (H : deals (db Example.released) !! 1
    = Some (Row.mk 11 (Some "alice") 22 (Some "bob") 100%float "USD"
            "Laptop sale" RELEASED 0%float
            (Some "add air again alarm admit alien advance almost ahead absorb aisle alter")
            (Some "account allow aerobic agree acoustic adjust abandon alone above alert address actor")
            Example.now)) by (vm_compute; reflexivity).
  split; [by rewrite H|].
  exact (proj1 (proj2 (proj2 (proj2
           (C1_terminal_deals int_decimal Example.released 1 _ eq_refl H
              eq_refl))))
           (Example.cmd Example.alice ["1"])).
Defined.

(** C1 as stated fails twice: the admin's cancel on a RELEASED deal is
    applied, turning it CANCELED; and the verification that wakes up on
    a CANCELED deal turns it FUNDED with balance 100. *)
Lemma C1_counterexample :
  Row.status <$> deals (db Example.released) !! 1 = Some RELEASED
  ∧ Row.status
    <$> deals (db (exec (cancel_cmd int_decimal
                           (Example.cmd Example.root ["1"]))
                     Example.released)) !! 1
    = Some CANCELED
  ∧ Row.status <$> deals (db Example.canceled) !! 1 = Some CANCELED
  ∧ (λ row, (Row.status row, Row.escrow_balance row))
    <$> deals (db (exec (verify_btc_deposit 1 100%float btc_address)
                     Example.canceled)) !! 1
    = Some (FUNDED, 100%float).
Proof. vm_compute. by split_and!. Qed.

(** ** C4: the two halves *)

Lemma fires_keeps_halves (op : Op.t) (row row' : Row.t) :
  issued row = true →
  fires op row row' →
  halves row' = halves row ∨ op = Op.initiate_deposit.
Proof.
  unfold issued. intros Hiss Hf. destruct op; cbn in Hf; auto.
  - destruct Hf as [_ ->]. by left.
  - destruct Hf as [_ ->]. by left.
  - destruct Hf as [_ ->]. by left.
  - destruct Hf as [_ ->]. by left.
  - subst row'. by left.
  - destruct Hf as [x ->]. by left.
  - destruct Hf as [Hmiss _]. congruence.
Qed.

Lemma fires_past_new (op : Op.t) (row row' : Row.t) :
  Row.status row ≠ NEW →
  fires op row row' →
  Row.status row' ≠ NEW ∧ op ≠ Op.initiate_deposit.
Proof.
  intros Hst Hf. destruct op; cbn in Hf.
  - by destruct Hf as [? _].
  - by destruct Hf as [_ ->].
  - by destruct Hf as [_ ->].
  - by destruct Hf as [_ ->].
  - by destruct Hf as [_ ->].
  - by subst row'.
  - by destruct Hf as [x ->].
  - by destruct Hf as (_ & ? & ? & ->).
Qed.

Lemma halves_stable_past_new (int : string → option Z) (rs : list Request) :
  ∀ (w : World) (deal_id : Z) (row : Row.t),
    deals (db w) !! deal_id = Some row →
    issued row = true →
    Row.status row ≠ NEW →
    ∃ row', deals (db (run int rs w)) !! deal_id = Some row'
            ∧ halves row' = halves row.
Proof.
  induction rs as [|r rs IH]; intros w deal_id row Hrow Hiss Hst.
  - by exists row.
  - cbn [run]. destruct (handle_steps int r w) as [Hrows _].
    destruct (Hrows deal_id row Hrow) as (row1 & Hrow1 & Hstep).
    assert (Hkeep : halves row1 = halves row ∧ Row.status row1 ≠ NEW).
    { destruct Hstep as [->|(op & _ & Hf)]; [done|].
      destruct (fires_past_new op row row1 Hst Hf) as [? Hop].
      by destruct (fires_keeps_halves op row row1 Hiss Hf). }
    destruct Hkeep as [Hh Hst1].
    destruct (IH _ deal_id row1 Hrow1) as (row' & Hrow' & Hh'); [|done|].
    + unfold issued, halves in *. by injection Hh as -> ->.
    + exists row'. split; [done|]. congruence.
Qed.

(** C4, as the code has it. The two halves of a deal, once both are
    stored, are replaced by one operation only: initiate_deposit, which
    draws a fresh phrase for the NEW deal it accepts. Every other request
    leaves them as they are, reading them back through
    [ensure_seed_phrases_exist] returns them unchanged, and once the deal
    has left NEW they stay the same through any run of the bot. (The id
    of a row of the table is an INTEGER of SQLite, which is what the
    read needs of it.) *)
Theorem C4_halves_replaced_only_by_deposit (int : string → option Z)
    (w : World) (deal_id : Z) (row : Row.t) :
  deals (db w) !! deal_id = Some row →
  issued row = true →
  (∀ r, ∃ row',
     deals (db (exec (handle int r) w)) !! deal_id = Some row'
     ∧ (halves row' = halves row
        ∨ (triggers w r Op.initiate_deposit
           ∧ fires Op.initiate_deposit row row')))
  ∧ (sqlite_int deal_id = true →
     ensure_seed_phrases_exist deal_id w = (Returns (halves row), w))
  ∧ (Row.status row ≠ NEW →
     ∀ rs, ∃ row',
       deals (db (run int rs w)) !! deal_id = Some row'
       ∧ halves row' = halves row).
Proof.
  intros Hrow Hiss. split_and!.
  - intros r. destruct (handle_steps int r w) as [Hrows _].
    destruct (Hrows deal_id row Hrow) as (row' & Hrow' & Hstep).
    exists row'. split; [done|].
    destruct Hstep as [->|(op & Htr & Hf)]; [by left|].
    destruct (fires_keeps_halves op row row' Hiss Hf) as [?| ->]; auto.
  - intros Hid. unfold ensure_seed_phrases_exist. run. rewrite Hrow.
    unfold issued in Hiss. apply andb_true_iff in Hiss as [-> ->]. done.
  - intros Hst rs. by apply halves_stable_past_new.
Qed.

Lemma C4_halves_replaced_only_by_deposit_witness :
  issued (Row.mk 11 (Some "alice") 22 (Some "bob") 100%float "USD"
            "Laptop sale" NEW 0%float
            (Some "abandon advance afford add aisle afraid absorb adult again alert access alpha")
            (Some "alley absurd alcohol acid already abstract alter actual action alarm airport all")
            Example.now) = true
  ∧ ensure_seed_phrases_exist 1 Example.created
    = (Returns
         (Some "abandon advance afford add aisle afraid absorb adult again alert access alpha",
          Some "alley absurd alcohol acid already abstract alter actual action alarm airport all"),
       Example.created).
Proof.
  assert (H : deals (db Example.created) !! 1
    = Some (Row.mk 11 (Some "alice") 22 (Some "bob") 100%float "USD"
            "Laptop sale" NEW 0%float
            (Some "abandon advance afford add aisle afraid absorb adult again alert access alpha")
            (Some "alley absurd alcohol acid already abstract alter actual action alarm airport all")
            Example.now)) by (vm_compute; reflexivity).
  split; [reflexivity|].
  exact (proj1 (proj2 (C4_halves_replaced_only_by_deposit int_decimal
                         Example.created 1 _ H eq_refl)) eq_refl).
Defined.

(** C4 as stated fails: the deal is created with one pair of halves, and
    initiate_deposit stores another pair. *)
Lemma C4_counterexample :
  halves <$> deals (db Example.created) !! 1
  = Some (Some "abandon advance afford add aisle afraid absorb adult again alert access alpha",
          Some "alley absurd alcohol acid already abstract alter actual action alarm airport all")
  ∧ halves
    <$> deals (db (exec (simulate_deposit_logic
                           (Example.cmd Example.alice ["1"]) 1)
                     Example.created)) !! 1
    = Some (Some "add air again alarm admit alien advance almost ahead absorb aisle alter",
            Some "account allow aerobic agree acoustic adjust abandon alone above alert address actor").
Proof. vm_compute. by split. Qed.

(** ** C6: the balance of a funded deal *)

Lemma fires_same_deal (op : Op.t) (row row' : Row.t) :
  fires op row row' → same_deal row row'.
Proof.
  unfold same_deal. intros Hf. destruct op; cbn in Hf.
  - by destruct Hf as (_ & ? & ? & ->).
  - by destruct Hf as [_ ->].
  - by destruct Hf as [_ ->].
  - by destruct Hf as [_ ->].
  - by destruct Hf as [_ ->].
  - by subst row'.
  - by destruct Hf as [x ->].
  - by destruct Hf as (_ & ? & ? & ->).
Qed.

Lemma same_deal_refl (row : Row.t) : same_deal row row.
Proof. by unfold same_deal. Qed.


Lemma handle_same_deal (int : string → option Z) (r : Request) (w : World)
    (deal_id : Z) (row : Row.t) :
  deals (db w) !! deal_id = Some row →
  ∃ row', deals (db (exec (handle int r) w)) !! deal_id = Some row'
          ∧ same_deal row row'.
Proof.
  intros Hrow. destruct (handle_steps int r w) as [Hrows _].
  destruct (Hrows deal_id row Hrow) as (row' & Hrow' & Hstep).
  exists row'. split; [done|].
  destruct Hstep as [->|(op & _ & Hf)]; [apply same_deal_refl|].
  by eapply fires_same_deal.
Qed.


Lemma tasks_match_handle (int : string → option Z) (r : Request) (w : World) :
  tasks_match w → tasks_match (exec (handle int r) w).
Proof.
  intros Hm t Ht. destruct (handle_steps int r w) as [_ Htasks].
  assert (Hold : ∀ id row, deals (db w) !! id = Some row →
            ∃ row', deals (db (exec (handle int r) w)) !! id = Some row'
                    ∧ Row.amount row' = Row.amount row).
  { intros id row Hrow.
    destruct (handle_same_deal int r w id row Hrow) as (row' & ? & Hs).
    exists row'. split; [done|]. apply Hs. }
  assert (Hkept : t ∈ tasks w →
            sqlite_int (task_deal_id t) = true
            ∧ ∃ row, deals (db (exec (handle int r) w)) !! task_deal_id t
                     = Some row
                     ∧ Row.amount row = task_expected_amount t).
  { intros Hin. destruct (Hm t Hin) as (Hrange & row & Hrow & Ha).
    destruct (Hold _ row Hrow) as (row' & ? & Ha').
    split; [done|]. exists row'. split; [done|]. congruence. }
  destruct Htasks as [Heq|[(id & row & Hrange & Hrow & Heq)|[n Heq]]];
    rewrite Heq in Ht.
  - by apply Hkept.
  - apply elem_of_app in Ht as [Hin|Hnew]; [by apply Hkept|].
    apply list_elem_of_singleton in Hnew as ->. cbn.
    destruct (Hold id row Hrow) as (row' & ? & ?).
    split; [done|]. by exists row'.
  - apply list_elem_of_delete_inv in Ht. by apply Hkept.
Qed.

Lemma tasks_match_run (int : string → option Z) (rs : list Request) :
  ∀ w, tasks_match w → tasks_match (run int rs w).
Proof.
  induction rs as [|r rs IH]; intros w Hm; [done|].
  cbn [run]. by apply IH, tasks_match_handle.
Qed.

(** C6, as the code has it. Start the bot with no task asleep and let it
    serve any requests. When a verification then wakes up on a deal that
    is PENDING_DEPOSIT and finds the deposit, the deal becomes FUNDED and
    its balance is [round(amount, 2)]: the deal's amount rounded to two
    decimals, which is the amount itself exactly when rounding leaves the
    amount unchanged. *)
Theorem C6_funded_balance_is_rounded_amount (int : string → option Z)
    (w0 : World) (rs : list Request) (n : nat) (t : Task) (row : Row.t) :
  tasks w0 = [] →
  tasks (run int rs w0) !! n = Some t →
  deals (db (run int rs w0)) !! task_deal_id t = Some row →
  Row.status row = PENDING_DEPOSIT →
  deposit_found (run int rs w0) = true →
  ∃ row',
    deals (db (exec (handle int (timer n)) (run int rs w0))) !! task_deal_id t
    = Some row'
    ∧ Row.status row' = FUNDED
    ∧ Row.amount row' = Row.amount row
    ∧ Row.escrow_balance row' = Py.round2 (Row.amount row)
    ∧ (Row.escrow_balance row' = Row.amount row'
       ↔ Py.round2 (Row.amount row) = Row.amount row).
Proof.
  intros Hstart Ht Hrow Hst Hfound.
  assert (Hm : tasks_match (run int rs w0)).
  { apply tasks_match_run. intros t'. rewrite Hstart. by intros ?%elem_of_nil. }
  destruct (Hm t) as (Hrange & row0 & Hrow0 & Hamount);
    [by eapply list_elem_of_lookup_2|].
  assert (row0 = row) as -> by congruence.
  cbn [handle]. destruct (wake_task_spec n _ t Ht) as [-> _].
  rewrite Hfound, Hrange. cbn [andb deals]. rewrite lookup_alter_eq, Hrow.
  eexists. split; [done|]. cbn. rewrite <- Hamount. by split_and!.
Qed.

Lemma C6_funded_balance_is_rounded_amount_witness :
  ∃ row',
    deals (db (exec (handle int_decimal (timer 0)) Example.odd_pending)) !! 1
    = Some row'
    ∧ Row.status row' = FUNDED
    ∧ Row.amount row' = Example.odd_amount
    ∧ Row.escrow_balance row' = Py.round2 Example.odd_amount
    ∧ (Row.escrow_balance row' = Row.amount row'
       ↔ Py.round2 Example.odd_amount = Example.odd_amount).
Proof.
  exact (C6_funded_balance_is_rounded_amount int_decimal Example.empty
           [newdeal (Example.cmd Example.alice []) 11 (Some "alice") 22
              (Some "bob") Example.odd_amount "usd" "Laptop sale";
            cmd_deposit (Example.cmd Example.alice ["1"])]
           0 (mkTask 1 Example.odd_amount btc_address)
           (Row.mk 11 (Some "alice") 22 (Some "bob") Example.odd_amount "USD"
              "Laptop sale" PENDING_DEPOSIT 0%float
              (Some "add air again alarm admit alien advance almost ahead absorb aisle alter")
              (Some "account allow aerobic agree acoustic adjust abandon alone above alert address actor")
              Example.now)
           eq_refl
           ltac:(vm_compute; reflexivity)
           ltac:(vm_compute; reflexivity)
           eq_refl
           ltac:(vm_compute; reflexivity)).
Defined.

(** C6 as stated fails: a deal of 100.0078125 (100 + 1/128) goes from
    PENDING_DEPOSIT to FUNDED by a verification that finds the deposit,
    and its balance is 100.01, not its amount. *)
Lemma C6_counterexample :
  (λ row, (Row.status row, Row.amount row))
  <$> deals (db Example.odd_pending) !! 1
  = Some (PENDING_DEPOSIT, 100.0078125%float)
  ∧ (λ row, (Row.status row, Row.amount row, Row.escrow_balance row))
    <$> deals (db (exec (wake_task 0) Example.odd_pending)) !! 1
    = Some (FUNDED, 100.0078125%float, 100.01%float)
  ∧ PrimFloat.eqb 100.01%float 100.0078125%float = false.
Proof. vm_compute. by split_and!. Qed.

(** ** C7: rows are kept while the bot runs, and cleared when it starts *)







